(** * Dashboards: widget traversal, widget-id diff and analytics

    A shallow embedding of [pkg/query-service/app/dashboards/model.go]:
    the functions that walk an untyped dashboard document
    ([getWidgetIds], [getIdDifference], [isDashboardWithPanelAndName],
    [checkLogPanelAttrContains], [countPanelsInDashboard]), the update
    path that guards against bulk panel deletion ([UpdateDashboard]) and
    the metric usage index ([GetDashboardsWithMetricNames]).

    Go strings are byte sequences and are modelled by [string] (a list of
    8-bit characters).  The standard-library functions the code calls
    ([strings.Contains], [strings.TrimSpace], [slices.Contains],
    [json.Marshal]) are modelled in modules named after their packages.
    The database handle and the JSON decoder are parameters of the
    functions that use them. *)

From Stdlib Require Import ZArith Ascii String List Lia.
From stdpp Require Import gmap strings list fin_maps sorting.

#[local] Set Warnings "-register-all".
#[local] Open Scope string_scope.
#[local] Open Scope list_scope.
#[local] Open Scope Z_scope.

(** ** Bytes *)

Definition byte (a : ascii) : Z := Z.of_N (N_of_ascii a).

(** [s[i]] for an index known to be in range; [0] otherwise. *)
Definition byteAt (s : string) (i : nat) : Z :=
  match String.get i s with
  | Some a => byte a
  | None => 0
  end.

(** [s[i:j]] *)
Definition slice (s : string) (i j : nat) : string :=
  String.substring i (j - i) s.

(** ** Package unicode/utf8 *)

Module utf8.

Definition RuneError : Z := 0xFFFD.
Definition RuneSelf : Z := 0x80.
Definition UTFMax : nat := 4.

(** The table [first] together with [acceptRanges]: for a leading byte,
    the length of the encoding and the range allowed for the second
    byte; [None] for the entries marked [xx] (invalid leading byte). *)
Definition first (s0 : Z) : option (nat * (Z * Z)) :=
  if s0 <? 0xC2 then None
  else if s0 <=? 0xDF then Some (2%nat, (0x80, 0xBF))
  else if s0 =? 0xE0 then Some (3%nat, (0xA0, 0xBF))
  else if s0 <=? 0xEC then Some (3%nat, (0x80, 0xBF))
  else if s0 =? 0xED then Some (3%nat, (0x80, 0x9F))
  else if s0 <=? 0xEF then Some (3%nat, (0x80, 0xBF))
  else if s0 =? 0xF0 then Some (4%nat, (0x90, 0xBF))
  else if s0 <=? 0xF3 then Some (4%nat, (0x80, 0xBF))
  else if s0 =? 0xF4 then Some (4%nat, (0x80, 0x8F))
  else None.

(** A continuation byte lies between [locb] and [hicb]. *)
Definition outside (lo hi b : Z) : bool := (b <? lo) || (hi <? b).

Definition DecodeRuneInString (s : string) : Z * nat :=
  match s with
  | EmptyString => (RuneError, 0%nat)
  | String a0 rest =>
      let s0 := byte a0 in
      if s0 <? RuneSelf then (s0, 1%nat)
      else
        match first s0 with
        | None => (RuneError, 1%nat)
        | Some (sz, (lo, hi)) =>
            if (String.length s <? sz)%nat then (RuneError, 1%nat)
            else
              let s1 := byteAt s 1 in
              if outside lo hi s1 then (RuneError, 1%nat)
              else if (sz <=? 2)%nat then
                (Z.lor (Z.shiftl (Z.land s0 0x1F) 6) (Z.land s1 0x3F), 2%nat)
              else
                let s2 := byteAt s 2 in
                if outside 0x80 0xBF s2 then (RuneError, 1%nat)
                else if (sz <=? 3)%nat then
                  (Z.lor (Z.lor (Z.shiftl (Z.land s0 0x0F) 12)
                                (Z.shiftl (Z.land s1 0x3F) 6))
                         (Z.land s2 0x3F), 3%nat)
                else
                  let s3 := byteAt s 3 in
                  if outside 0x80 0xBF s3 then (RuneError, 1%nat)
                  else
                    (Z.lor (Z.lor (Z.lor (Z.shiftl (Z.land s0 0x07) 18)
                                         (Z.shiftl (Z.land s1 0x3F) 12))
                                  (Z.shiftl (Z.land s2 0x3F) 6))
                           (Z.land s3 0x3F), 4%nat)
        end
  end.

Definition RuneStart (b : Z) : bool := negb (Z.land b 0xC0 =? 0x80).

(** The backwards scan of [DecodeLastRuneInString]:
    [for start--; start >= lim; start-- { if RuneStart(s[start]) { break } }].
    It looks at no more than [UTFMax - 1] bytes. *)
Fixpoint scanBack (n : nat) (s : string) (start lim : Z) : Z :=
  match n with
  | O => start
  | S n' =>
      if start <? lim then start
      else if RuneStart (byteAt s (Z.to_nat start)) then start
      else scanBack n' s (start - 1) lim
  end.

Definition DecodeLastRuneInString (s : string) : Z * nat :=
  let end_ := Z.of_nat (String.length s) in
  if end_ =? 0 then (RuneError, 0%nat)
  else
    let start := end_ - 1 in
    let r := byteAt s (Z.to_nat start) in
    if r <? RuneSelf then (r, 1%nat)
    else
      let lim := Z.max 0 (end_ - Z.of_nat UTFMax) in
      let start := scanBack UTFMax s (start - 1) lim in
      let start := Z.max 0 start in
      let '(r, size) :=
        DecodeRuneInString (slice s (Z.to_nat start) (Z.to_nat end_)) in
      if start + Z.of_nat size =? end_ then (r, size)
      else (RuneError, 1%nat).

End utf8.

(** ** Package unicode *)

Module unicode.

(** [IsSpace]: the Latin-1 cases spelled out in the function, and the
    remaining code points of the [White_Space] table. *)
Definition IsSpace (r : Z) : bool :=
  if r <=? 0xFF then
    (r =? 0x09) || (r =? 0x0A) || (r =? 0x0B) || (r =? 0x0C) || (r =? 0x0D)
    || (r =? 0x20) || (r =? 0x85) || (r =? 0xA0)
  else
    (r =? 0x1680) || ((0x2000 <=? r) && (r <=? 0x200A))
    || (r =? 0x2028) || (r =? 0x2029) || (r =? 0x202F) || (r =? 0x205F)
    || (r =? 0x3000).

End unicode.

(** ** Package strings *)

Module strings.

Fixpoint HasPrefix (s prefix : string) : bool :=
  match prefix, s with
  | EmptyString, _ => true
  | String _ _, EmptyString => false
  | String a prefix', String b s' =>
      if Ascii.eqb a b then HasPrefix s' prefix' else false
  end.

(** [Contains(s, substr)]: [substr] occurs at some offset of [s]. *)
Fixpoint Contains (s substr : string) : bool :=
  HasPrefix s substr
  || match s with
     | EmptyString => false
     | String _ s' => Contains s' substr
     end.

(** [indexFunc]: [for i, r := range s { if f(r) == truth { return i } }].
    [skip] counts the bytes of the current rune still to be stepped
    over. *)
Fixpoint indexFuncFrom (f : Z -> bool) (truth : bool) (s : string)
    (i skip : nat) : option nat :=
  match s with
  | EmptyString => None
  | String _ s' =>
      match skip with
      | S k => indexFuncFrom f truth s' (S i) k
      | O =>
          let '(r, size) := utf8.DecodeRuneInString s in
          if Bool.eqb (f r) truth then Some i
          else indexFuncFrom f truth s' (S i) (size - 1)
      end
  end.

Definition indexFunc (s : string) (f : Z -> bool) (truth : bool)
    : option nat :=
  indexFuncFrom f truth s 0 0.

(** [lastIndexFunc]:
    [for i := len(s); i > 0; { r, size := DecodeLastRuneInString(s[0:i]);
       i -= size; if f(r) == truth { return i } }]. *)
Fixpoint lastIndexFuncFrom (f : Z -> bool) (truth : bool) (s : string)
    (i skip : nat) : option nat :=
  match i with
  | O => None
  | S j =>
      match skip with
      | S k => lastIndexFuncFrom f truth s j k
      | O =>
          let '(r, size) := utf8.DecodeLastRuneInString (slice s 0 i) in
          if Bool.eqb (f r) truth then Some (i - size)%nat
          else lastIndexFuncFrom f truth s j (size - 1)
      end
  end.

Definition lastIndexFunc (s : string) (f : Z -> bool) (truth : bool)
    : option nat :=
  lastIndexFuncFrom f truth s (String.length s) 0.

Definition TrimLeftFunc (s : string) (f : Z -> bool) : string :=
  match indexFunc s f false with
  | None => EmptyString
  | Some i => slice s i (String.length s)
  end.

Definition TrimRightFunc (s : string) (f : Z -> bool) : string :=
  match lastIndexFunc s f false with
  | Some i =>
      if utf8.RuneSelf <=? byteAt s i then
        let '(_, wid) :=
          utf8.DecodeRuneInString (slice s i (String.length s)) in
        slice s 0 (i + wid)
      else slice s 0 (i + 1)
  | None => EmptyString
  end.

Definition TrimFunc (s : string) (f : Z -> bool) : string :=
  TrimRightFunc (TrimLeftFunc s f) f.

(** [TrimSpace] removes leading and trailing white space as defined by
    Unicode; its ASCII fast path computes the same string as
    [TrimFunc(s, unicode.IsSpace)]. *)
Definition TrimSpace (s : string) : string := TrimFunc s unicode.IsSpace.

End strings.

(** ** Package slices *)

Module slices.

Definition Contains (l : list string) (v : string) : bool :=
  existsb (String.eqb v) l.

End slices.

(** ** Go values held by [interface{}]

    The dynamic types the code tells apart with its type assertions and
    comparisons: the six shapes [encoding/json] decodes into
    ([nil], [bool], [float64], [string], [[]interface{}],
    [map[string]interface{}]) and [map[string]string], which
    [checkLogPanelAttrContains] asserts on.  A nested nil slice or nil map
    is identified with the empty one: every read the code performs gives
    the same result on both, and the decoder produces neither. *)

(** A [float64]: a finite number, carried as the decimal text
    [encoding/json] prints for it (the code never computes with numbers),
    or one of the three values the encoder rejects. *)
Inductive float64 : Type :=
| Finite (text : string)
| NaN
| PosInf
| NegInf.

Inductive value : Type :=
| VNil
| VBool (b : bool)
| VFloat64 (f : float64)
| VString (s : string)
| VSlice (l : list value)
| VMap (m : gmap string value)
| VMapString (m : gmap string string).

(** [m[k]]: indexing a Go map with a missing key gives the zero value of
    the element type, the nil interface for [map[string]interface{}]. *)
Definition field (m : gmap string value) (k : string) : value :=
  default VNil (m !! k).

(** [type Data map[string]interface{}]; [None] is the nil map. *)
Definition Data : Type := option (gmap string value).

(** [data[k]] on a map that may be nil. *)
Definition index (data : Data) (k : string) : value :=
  match data with
  | Some m => field m k
  | None => VNil
  end.

(** [v != nil] *)
Definition notNil (v : value) : bool :=
  match v with
  | VNil => false
  | _ => true
  end.

(** [v == "..."] for an interface value and a string constant: true when
    the dynamic type is [string] and the contents agree. *)
Definition eqString (v : value) (s : string) : bool :=
  match v with
  | VString s' => String.eqb s' s
  | _ => false
  end.

(** The comma-ok type assertions [v.(T)]; [None] stands for [ok == false]. *)
Definition asString (v : value) : option string :=
  match v with VString s => Some s | _ => None end.

Definition asSlice (v : value) : option (list value) :=
  match v with VSlice l => Some l | _ => None end.

Definition asMap (v : value) : option (gmap string value) :=
  match v with VMap m => Some m | _ => None end.

Definition asMapString (v : value) : option (gmap string string) :=
  match v with VMapString m => Some m | _ => None end.

(** [s, _ := v.(string)]: the empty string when the assertion fails. *)
Definition stringOrZero (v : value) : string := default EmptyString (asString v).

(** Results of calls that return [(T, error)]; an [error] is represented
    by its message. *)
Inductive result (A : Type) : Type :=
| Success (a : A)
| Failure (e : string).
Arguments Success {A} a.
Arguments Failure {A} e.

Definition rbind {A B} (r : result A) (k : A -> result B) : result B :=
  match r with
  | Success a => k a
  | Failure e => Failure e
  end.

(** ** Package encoding/json: [Marshal] *)

Module json.

(** Left-to-right traversal that stops at the first error. *)
Fixpoint collect {A B} (f : A -> result B) (l : list A) : result (list B) :=
  match l with
  | [] => Success []
  | x :: l' => rbind (f x) (fun y => rbind (collect f l') (fun ys => Success (y :: ys)))
  end.

Fixpoint join (sep : string) (l : list string) : string :=
  match l with
  | [] => EmptyString
  | [x] => x
  | x :: l' => x +:+ sep +:+ join sep l'
  end.

(** [hex = "0123456789abcdef"] *)
Definition hex (n : Z) : string :=
  String.substring (Z.to_nat n) 1 "0123456789abcdef".

(** [htmlSafeSet]: printable ASCII except the quote, the backslash and
    the three characters escaped for HTML. *)
Definition htmlSafeSet (b : Z) : bool :=
  (0x20 <=? b) && (b <? 0x80)
  && negb ((b =? 0x22) || (b =? 0x5C) || (b =? 0x3C) || (b =? 0x3E) || (b =? 0x26)).

(** The escape written for an ASCII byte outside [htmlSafeSet]; backspace
    and form feed take the short forms of Go 1.22 and later. *)
Definition escapeByte (a : ascii) : string :=
  let b := byte a in
  if (b =? 0x5C) || (b =? 0x22) then String "\" (String a EmptyString)
  else if b =? 0x08 then "\b"
  else if b =? 0x0C then "\f"
  else if b =? 0x0A then "\n"
  else if b =? 0x0D then "\r"
  else if b =? 0x09 then "\t"
  else "\u00" +:+ hex (Z.shiftr b 4) +:+ hex (Z.land b 0xF).

(** The body of [appendString] with [escapeHTML] set: the loop over the
    bytes of [src].  [skip] counts the remaining bytes of a multi-byte
    rune that is copied unchanged. *)
Fixpoint escapeFrom (src : string) (skip : nat) : string :=
  match src with
  | EmptyString => EmptyString
  | String a rest =>
      match skip with
      | S k => String a (escapeFrom rest k)
      | O =>
          if byte a <? utf8.RuneSelf then
            if htmlSafeSet (byte a) then String a (escapeFrom rest 0)
            else escapeByte a +:+ escapeFrom rest 0
          else
            let '(c, size) :=
              utf8.DecodeRuneInString (slice src 0 utf8.UTFMax) in
            if (c =? utf8.RuneError) && (size =? 1)%nat then
              "\ufffd" +:+ escapeFrom rest 0
            else if (c =? 0x2028) || (c =? 0x2029) then
              (* the rune is three bytes long: [i += size] *)
              match rest with
              | String _ (String _ rest') =>
                  "\u202" +:+ hex (Z.land c 0xF) +:+ escapeFrom rest' 0
              | _ => EmptyString
              end
            else String a (escapeFrom rest (size - 1))
      end
  end.

Definition quote : string := String (ascii_of_N 0x22) EmptyString.

Definition appendString (src : string) : string :=
  quote +:+ escapeFrom src 0 +:+ quote.

Definition floatEncoder (f : float64) : result string :=
  match f with
  | Finite text => Success text
  | NaN => Failure "json: unsupported value: NaN"
  | PosInf => Failure "json: unsupported value: +Inf"
  | NegInf => Failure "json: unsupported value: -Inf"
  end.

(** Map keys are written in sorted (byte-wise) order. *)
Definition keyLe {A} (x y : string * A) : Prop := String.leb x.1 y.1 = true.

#[global] Instance keyLe_dec {A} (x y : string * A) : Decision (keyLe x y).
Proof. unfold keyLe. apply _. Defined.

Definition mapEncoder (m : gmap string (result string)) : result string :=
  rbind
    (collect (fun kv : string * result string =>
                rbind kv.2 (fun v => Success (appendString kv.1 +:+ ":" +:+ v)))
             (merge_sort keyLe (map_to_list m)))
    (fun parts => Success ("{" +:+ join "," parts +:+ "}")).

Fixpoint encode (v : value) : result string :=
  match v with
  | VNil => Success "null"
  | VBool b => Success (if b then "true" else "false")
  | VFloat64 f => floatEncoder f
  | VString s => Success (appendString s)
  | VSlice l =>
      rbind (collect encode l) (fun parts => Success ("[" +:+ join "," parts +:+ "]"))
  | VMap m => mapEncoder (encode <$> m)
  | VMapString m => mapEncoder ((fun s => Success (appendString s)) <$> m)
  end.

(** [json.Marshal(data)] for [data] of type [map[string]interface{}];
    a nil map is written [null]. *)
Definition Marshal (data : Data) : result string :=
  match data with
  | None => Success "null"
  | Some m => encode (VMap m)
  end.

End json.

(** ** Widget identifiers *)

(** The body of the loop of [getWidgetIds]. *)
Definition appendWidgetId (widgetIds : list string) (widget : value)
    : list string :=
  match asMap widget with
  | Some sData =>
      if notNil (field sData "query") && notNil (field sData "id") then
        match asString (field sData "id") with
        | Some id => (widgetIds ++ [id])%list
        | None => widgetIds
        end
      else widgetIds
  | None => widgetIds
  end.

Definition getWidgetIds (data : Data) : list string :=
  let widgetIds := [] in
  match data with
  | Some m =>
      if notNil (field m "widgets") then
        match m !! "widgets" with
        | Some widgets =>
            match asSlice widgets with
            | Some data => fold_left appendWidgetId data widgetIds
            | None => widgetIds
            end
        | None => widgetIds
        end
      else widgetIds
  | None => widgetIds
  end.

(** [if _, found := newIdsMap[id]; !found && !differenceMap[id] { ... }] *)
Definition diffStep (newIdsMap : gmap string bool)
    (st : list string * gmap string bool) (id : string)
    : list string * gmap string bool :=
  let '(difference, differenceMap) := st in
  if negb (bool_decide (is_Some (newIdsMap !! id)))
     && negb (default false (differenceMap !! id))
  then ((difference ++ [id])%list, <[id := true]> differenceMap)
  else (difference, differenceMap).

Definition getIdDifference (existingIds newIds : list string) : list string :=
  let newIdsMap :=
    fold_left (fun (m : gmap string bool) id => <[id := true]> m) newIds ∅ in
  fst (fold_left (diffStep newIdsMap) existingIds ([], ∅)).

(** ** Document-level checks *)

Definition isDashboardWithLogsClickhouseQuery (data : Data) : bool :=
  match json.Marshal data with
  | Failure _ => false
  | Success jsonData =>
      strings.Contains jsonData "signoz_logs.distributed_logs"
      || strings.Contains jsonData "signoz_logs.logs"
  end.

Definition isDashboardWithTracesClickhouseQuery (data : Data) : bool :=
  match json.Marshal data with
  | Failure _ => false
  | Success str =>
      strings.Contains str "signoz_traces.distributed_signoz_index_v2"
      || strings.Contains str "signoz_traces.distributed_signoz_spans"
      || strings.Contains str "signoz_traces.distributed_signoz_error_index_v2"
  end.

Definition isDashboardWithPanelAndName (data : Data) : bool :=
  match data with
  | Some m =>
      if notNil (field m "title") && notNil (field m "widgets") then
        let isDashboardName :=
          match asString (field m "title") with
          | Some title => negb (String.eqb title "Sample Title")
          | None => false
          end in
        match m !! "widgets" with
        | Some widgets =>
            if isDashboardName then
              match asSlice widgets with
              | Some data => (0 <? length data)%nat
              | None => false
              end
            else false
        | None => false
        end
      else false
  | None => false
  end.

(** ** Panel counts *)

(** The body of the loop of [checkLogPanelAttrContains]; [key["key"]] on
    a [map[string]string] is the empty string when the key is missing. *)
Definition countAttrContains (logsPanelsWithAttrContains : Z) (item : value)
    : Z :=
  match asMap item with
  | Some itemMap =>
      match asString (field itemMap "op") with
      | Some opStr =>
          if slices.Contains ["contains"; "ncontains"; "like"; "nlike"] opStr
          then
            match asMapString (field itemMap "key") with
            | Some key =>
                if negb (String.eqb (default EmptyString (key !! "key")) "body")
                then logsPanelsWithAttrContains + 1
                else logsPanelsWithAttrContains
            | None => logsPanelsWithAttrContains
            end
          else logsPanelsWithAttrContains
      | None => logsPanelsWithAttrContains
      end
  | None => logsPanelsWithAttrContains
  end.

Definition checkLogPanelAttrContains (data : gmap string value) : Z :=
  let logsPanelsWithAttrContains := 0 in
  match asMap (field data "filters") with
  | Some filters =>
      if notNil (field filters "items") then
        match asSlice (field filters "items") with
        | Some items => fold_left countAttrContains items logsPanelsWithAttrContains
        | None => logsPanelsWithAttrContains
        end
      else logsPanelsWithAttrContains
  | None => logsPanelsWithAttrContains
  end.

(** The fields of [model.DashboardsInfo] that [countPanelsInDashboard]
    fills.  Counters are Go [int]s; each increment below is paid for by
    one element of a slice held in memory, so they stay far from the
    64-bit limit and are modelled by [Z]. *)
Record DashboardsInfo : Type := {
  LogsBasedPanels : Z;
  TracesBasedPanels : Z;
  MetricBasedPanels : Z;
  DashboardsWithLogsChQuery : Z;
  DashboardsWithTraceChQuery : Z;
  LogsPanelsWithAttrContainsOp : Z
}.

(** The local variables of [countPanelsInDashboard]. *)
Record panelCounters : Type := {
  logsPanelCount : Z;
  tracesPanelCount : Z;
  metricsPanelCount : Z;
  logsPanelsWithAttrContains : Z;
  traceChQueryCount : Z;
  logChQueryCount : Z
}.

Definition zeroCounters : panelCounters :=
  {| logsPanelCount := 0; tracesPanelCount := 0; metricsPanelCount := 0;
     logsPanelsWithAttrContains := 0; traceChQueryCount := 0;
     logChQueryCount := 0 |}.

(** The body of the inner loop over [builderQueryData]. *)
Definition countQueryData (c : panelCounters) (queryData : value)
    : panelCounters :=
  match asMap queryData with
  | Some data =>
      if eqString (field data "dataSource") "traces" then
        {| logsPanelCount := logsPanelCount c;
           tracesPanelCount := tracesPanelCount c + 1;
           metricsPanelCount := metricsPanelCount c;
           logsPanelsWithAttrContains := logsPanelsWithAttrContains c;
           traceChQueryCount := traceChQueryCount c;
           logChQueryCount := logChQueryCount c |}
      else if eqString (field data "dataSource") "metrics" then
        {| logsPanelCount := logsPanelCount c;
           tracesPanelCount := tracesPanelCount c;
           metricsPanelCount := metricsPanelCount c + 1;
           logsPanelsWithAttrContains := logsPanelsWithAttrContains c;
           traceChQueryCount := traceChQueryCount c;
           logChQueryCount := logChQueryCount c |}
      else if eqString (field data "dataSource") "logs" then
        {| logsPanelCount := logsPanelCount c + 1;
           tracesPanelCount := tracesPanelCount c;
           metricsPanelCount := metricsPanelCount c;
           logsPanelsWithAttrContains :=
             logsPanelsWithAttrContains c + checkLogPanelAttrContains data;
           traceChQueryCount := traceChQueryCount c;
           logChQueryCount := logChQueryCount c |}
      else c
  | None => c
  end.

(** The two assignments of the [clickhouse_sql] branch. *)
Definition sniffClickhouse (inputData : Data) (c : panelCounters)
    : panelCounters :=
  {| logsPanelCount := logsPanelCount c;
     tracesPanelCount := tracesPanelCount c;
     metricsPanelCount := metricsPanelCount c;
     logsPanelsWithAttrContains := logsPanelsWithAttrContains c;
     traceChQueryCount :=
       if isDashboardWithTracesClickhouseQuery inputData then 1
       else traceChQueryCount c;
     logChQueryCount :=
       if isDashboardWithLogsClickhouseQuery inputData then 1
       else logChQueryCount c |}.

(** The body of the loop over the widgets. *)
Definition countWidget (inputData : Data) (c : panelCounters) (widget : value)
    : panelCounters :=
  match asMap widget with
  | Some sData =>
      if notNil (field sData "query") then
        match asMap (field sData "query") with
        | Some query =>
            if eqString (field query "queryType") "builder"
               && notNil (field query "builder")
            then
              match asMap (field query "builder") with
              | Some builderData =>
                  if notNil (field builderData "queryData") then
                    match asSlice (field builderData "queryData") with
                    | Some builderQueryData =>
                        fold_left countQueryData builderQueryData c
                    | None => c
                    end
                  else c
              | None => c
              end
            else if eqString (field query "queryType") "clickhouse_sql"
                    && notNil (field query "clickhouse_sql")
            then sniffClickhouse inputData c
            else c
        | None => c
        end
      else c
  | None => c
  end.

(** The [return] statement of [countPanelsInDashboard]. *)
Definition summary (c : panelCounters) : DashboardsInfo :=
  {| LogsBasedPanels := logsPanelCount c;
     TracesBasedPanels := tracesPanelCount c;
     MetricBasedPanels := metricsPanelCount c;
     DashboardsWithLogsChQuery := logChQueryCount c;
     DashboardsWithTraceChQuery := traceChQueryCount c;
     LogsPanelsWithAttrContainsOp := logsPanelsWithAttrContains c |}.

Definition countPanelsInDashboard (inputData : Data) : DashboardsInfo :=
  let c :=
    match inputData with
    | Some m =>
        if notNil (field m "widgets") then
          match m !! "widgets" with
          | Some widgets =>
              match asSlice widgets with
              | Some data => fold_left (countWidget inputData) data zeroCounters
              | None => zeroCounters
              end
          | None => zeroCounters
          end
        else zeroCounters
    | None => zeroCounters
    end in
  summary c.

(** ** Persistence and the update path *)

(** [time.Time] values are represented by an integer time stamp. *)
Record Dashboard : Type := {
  Dashboard_Id : Z;
  Dashboard_Uuid : string;
  Dashboard_Slug : string;
  Dashboard_CreatedAt : Z;
  Dashboard_CreateBy : option string;
  Dashboard_UpdatedAt : Z;
  Dashboard_UpdateBy : option string;
  Dashboard_Title : string;
  Dashboard_Data : Data;
  Dashboard_Locked : option Z
}.

(** The row type declared inside [GetDashboardsWithMetricNames]; [Data]
    is the undecoded JSON text. *)
Record dashboardRow : Type := {
  dashboardRow_Uuid : string;
  dashboardRow_Data : string
}.

(** The error types of the model package that this file uses. *)
Inductive ErrorType : Type :=
| ErrorBadData
| ErrorExec
| ErrorNotFound.

Record ApiError : Type := {
  Typ : ErrorType;
  Err : string
}.

(** Modelled from the spec: [model.BadRequest] is declared in the model
    package, outside this file.  The spec describes its result as the
    policy-violation rejection, a user-facing error that is not a
    persistence failure; it is taken to wrap the message in an [ApiError]
    of the bad-data type. *)
Definition BadRequest (err : string) : ApiError :=
  {| Typ := ErrorBadData; Err := err |}.

(** The result of [common.GetUserFromContext(ctx)]. *)
Record User : Type := { Email : string }.

(** The package-level handle [db], as the three statements this file
    issues through it, over a database state [S]:
    - [db.Get(&dashboard, `SELECT * FROM dashboards WHERE uuid=?`, uuid)],
      [None] when it returns an error (no row, or a row whose data does
      not scan);
    - [db.Exec("UPDATE dashboards SET updated_at=$1, updated_by=$2,
      data=$3 WHERE uuid=$4;", ...)], giving the next state and the error
      if there is one;
    - [db.Select(&dashboards, `SELECT uuid, data FROM dashboards`)]. *)
Record Store (S : Type) : Type := {
  db_Get : S -> string -> option Dashboard;
  db_Exec_update : S -> Z -> string -> string -> string -> S * option string;
  db_Select : S -> result (list dashboardRow)
}.
Arguments db_Get {S} _ _ _.
Arguments db_Exec_update {S} _ _ _ _ _ _.
Arguments db_Select {S} _ _.

Definition GetDashboard {S} (db : Store S) (st : S) (uuid : string)
    : Dashboard + ApiError :=
  match db_Get db st uuid with
  | Some dashboard => inl dashboard
  | None =>
      inr {| Typ := ErrorNotFound;
             Err := "no dashboard found with uuid: " +:+ uuid |}
  end.

(** [dashboard.Locked != nil && *dashboard.Locked == 1] *)
Definition isLocked (dashboard : Dashboard) : bool :=
  match Dashboard_Locked dashboard with
  | Some l => l =? 1
  | None => false
  end.

(** [UpdateDashboard]: [now] is the reading of [time.Now()], [user] the
    user found in the context.  The result pairs what the function
    returns with the database state it leaves. *)
Definition UpdateDashboard {S} (db : Store S) (st : S) (now : Z)
    (user : option User) (uuid : string) (data : Data)
    : (Dashboard + ApiError) * S :=
  match json.Marshal data with
  | Failure err => (inr {| Typ := ErrorBadData; Err := err |}, st)
  | Success mapData =>
      match GetDashboard db st uuid with
      | inr apiErr => (inr apiErr, st)
      | inl dashboard =>
          let userEmail :=
            match user with
            | Some u => Email u
            | None => EmptyString
            end in
          if match user with
             | Some _ => isLocked dashboard
             | None => false
             end
          then
            (inr (BadRequest "dashboard is locked, please unlock the dashboard to be able to edit it"), st)
          else
            let existingIds := getWidgetIds (Dashboard_Data dashboard) in
            let newIds := getWidgetIds data in
            let differenceIds := getIdDifference existingIds newIds in
            if (1 <? length differenceIds)%nat then
              (inr (BadRequest "deleting more than one panel is not supported"), st)
            else
              let dashboard :=
                {| Dashboard_Id := Dashboard_Id dashboard;
                   Dashboard_Uuid := Dashboard_Uuid dashboard;
                   Dashboard_Slug := Dashboard_Slug dashboard;
                   Dashboard_CreatedAt := Dashboard_CreatedAt dashboard;
                   Dashboard_CreateBy := Dashboard_CreateBy dashboard;
                   Dashboard_UpdatedAt := now;
                   Dashboard_UpdateBy := Some userEmail;
                   Dashboard_Title := Dashboard_Title dashboard;
                   Dashboard_Data := data;
                   Dashboard_Locked := Dashboard_Locked dashboard |} in
              match db_Exec_update db st (Dashboard_UpdatedAt dashboard)
                      userEmail mapData (Dashboard_Uuid dashboard) with
              | (st', Some err) => (inr {| Typ := ErrorExec; Err := err |}, st')
              | (st', None) => (inl dashboard, st')
              end
      end
  end.

(** ** The metric usage index *)

(** The map literal appended for a match. *)
Definition usageRecord (dashboardUuid widgetTitle widgetID dashTitle : string)
    : gmap string string :=
  <["dashboard_id" := dashboardUuid]>
    (<["widget_title" := widgetTitle]>
       (<["widget_id" := widgetID]>
          (<["dashboard_title" := dashTitle]> ∅))).

Abbreviation usageIndex := (gmap string (list (gmap string string))).

(** [result[metricName] = append(result[metricName], rec)] *)
Definition appendUsage (result : usageIndex) (metricName : string)
    (rec : gmap string string) : usageIndex :=
  <[metricName := (default [] (result !! metricName) ++ [rec])%list]> result.

(** The loop over [metricNames]. *)
Definition matchMetricNames (key : string) (rec : gmap string string)
    (metricNames : list string) (result : usageIndex) : usageIndex :=
  fold_left
    (fun result metricName =>
       if String.eqb (strings.TrimSpace key) metricName
       then appendUsage result metricName rec
       else result)
    metricNames result.

(** The body of the loop over [queryData]. *)
Definition scanQueryData (metricNames : list string) (rec : gmap string string)
    (result : usageIndex) (qd : value) : usageIndex :=
  match asMap qd with
  | None => result
  | Some data =>
      match asString (field data "dataSource") with
      | Some dataSource =>
          if negb (String.eqb dataSource "metrics") then result
          else
            match asMap (field data "aggregateAttribute") with
            | None => result
            | Some aggregateAttr =>
                match asString (field aggregateAttr "key") with
                | Some key => matchMetricNames key rec metricNames result
                | None => result
                end
            end
      | None => result
      end
  end.

(** The body of the loop over [widgets]. *)
Definition scanWidget (metricNames : list string)
    (dashboardUuid dashTitle : string) (result : usageIndex) (w : value)
    : usageIndex :=
  match asMap w with
  | None => result
  | Some widget =>
      let widgetTitle := stringOrZero (field widget "title") in
      let widgetID := stringOrZero (field widget "id") in
      match asMap (field widget "query") with
      | None => result
      | Some query =>
          match asMap (field query "builder") with
          | None => result
          | Some builder =>
              match asSlice (field builder "queryData") with
              | None => result
              | Some queryData =>
                  fold_left
                    (scanQueryData metricNames
                       (usageRecord dashboardUuid widgetTitle widgetID dashTitle))
                    queryData result
              end
          end
      end
  end.

(** The body of the loop over the rows; [json_Unmarshal] is the decoder
    of [encoding/json] at type [map[string]interface{}], with [None] for
    a decoding error. *)
Definition scanDashboard (json_Unmarshal : string -> option Data)
    (metricNames : list string) (result : usageIndex) (dashboard : dashboardRow)
    : usageIndex :=
  match json_Unmarshal (dashboardRow_Data dashboard) with
  | None => result
  | Some dashData =>
      let dashTitle := stringOrZero (index dashData "title") in
      match asSlice (index dashData "widgets") with
      | None => result
      | Some widgets =>
          fold_left
            (scanWidget metricNames (dashboardRow_Uuid dashboard) dashTitle)
            widgets result
      end
  end.

Definition GetDashboardsWithMetricNames {S} (db : Store S)
    (json_Unmarshal : string -> option Data) (st : S)
    (metricNames : list string) : usageIndex + ApiError :=
  match db_Select db st with
  | Failure err => inr {| Typ := ErrorExec; Err := err |}
  | Success dashboards =>
      inl (fold_left (scanDashboard json_Unmarshal metricNames) dashboards ∅)
  end.

(** ** Reference definitions, written from the documentation *)

(** Keep the first occurrence of every element. *)
Fixpoint keepFirst (l : list string) : list string :=
  match l with
  | [] => []
  | x :: l' => x :: filter (fun y => y <> x) (keepFirst l')
  end.

(** The identifiers of [existingIds] that are not in [newIds], each once,
    in first-seen order. *)
Definition spec_diff (existingIds newIds : list string) : list string :=
  keepFirst (filter (fun id => id ∉ newIds) existingIds).

(** The flagged operators of the analytics. *)
Definition flaggedOps : list string := ["contains"; "ncontains"; "like"; "nlike"].

(** A filter item counts as flagged when its [op] is a flagged operator
    and the [key] sub-field of its [key] mapping is not ["body"]; in a
    decoded document the [key] mapping is a [map[string]interface{}]. *)
Definition spec_flagged (item : value) : bool :=
  match asMap item with
  | Some itemMap =>
      match asString (field itemMap "op"), asMap (field itemMap "key") with
      | Some op, Some key =>
          slices.Contains flaggedOps op && negb (eqString (field key "key") "body")
      | _, _ => false
      end
  | None => false
  end.

(** "has panel and name" as documented: a title that is a non-empty
    string other than the placeholder, and a non-empty array of widgets. *)
Definition spec_hasPanelAndName (data : Data) : Prop :=
  exists title widgets,
    index data "title" = VString title /\
    title <> EmptyString /\
    title <> "Sample Title" /\
    index data "widgets" = VSlice widgets /\
    widgets <> [].

(** The records appended for a trimmed key [metric]: one for every
    occurrence of [name] among the requested names that equals it. *)
Definition matched (metricNames : list string) (rec : gmap string string)
    (metric name : string) : list (gmap string string) :=
  _ ← filter (fun requested => requested = name /\ metric = requested) metricNames;
  [rec].

(** The builder query items of a widget: the elements of
    [query.builder.queryData]. *)
Definition builderItems (widget : gmap string value) : list value :=
  match asMap (field widget "query") with
  | Some query =>
      match asMap (field query "builder") with
      | Some builder => default [] (asSlice (field builder "queryData"))
      | None => []
      end
  | None => []
  end.

(** The metric a builder query item refers to: for an item whose
    [dataSource] is ["metrics"], its [aggregateAttribute.key] with the
    surrounding white space trimmed. *)
Definition metricOf (item : value) : option string :=
  match asMap item with
  | Some data =>
      if eqString (field data "dataSource") "metrics" then
        match asMap (field data "aggregateAttribute") with
        | Some attr => strings.TrimSpace <$> asString (field attr "key")
        | None => None
        end
      else None
  | None => None
  end.

(** The usage records of one widget for the metric [name]: one for every
    builder query item on that metric and every occurrence of [name]
    among the requested names. *)
Definition widgetUsages (metricNames : list string) (name : string)
    (dashboardUuid dashTitle : string) (w : value) : list (gmap string string) :=
  match asMap w with
  | Some widget =>
      item ← builderItems widget;
      match metricOf item with
      | Some metric =>
          matched metricNames
            (usageRecord dashboardUuid (stringOrZero (field widget "title"))
               (stringOrZero (field widget "id")) dashTitle)
            metric name
      | None => []
      end
  | None => []
  end.

(** The widgets of a stored row: none when the text does not decode or
    [widgets] is not an array. *)
Definition rowWidgets (json_Unmarshal : string -> option Data)
    (row : dashboardRow) : list value :=
  match json_Unmarshal (dashboardRow_Data row) with
  | Some doc => default [] (asSlice (index doc "widgets"))
  | None => []
  end.

Definition rowTitle (json_Unmarshal : string -> option Data)
    (row : dashboardRow) : string :=
  match json_Unmarshal (dashboardRow_Data row) with
  | Some doc => stringOrZero (index doc "title")
  | None => EmptyString
  end.

(** The usage records for [name] over all rows, in row, widget and item
    order. *)
Definition spec_usages (json_Unmarshal : string -> option Data)
    (rows : list dashboardRow) (metricNames : list string) (name : string)
    : list (gmap string string) :=
  row ← rows;
  w ← rowWidgets json_Unmarshal row;
  widgetUsages metricNames name (dashboardRow_Uuid row)
    (rowTitle json_Unmarshal row) w.

(** ** Reading the usage index *)

(** [result[name]]: the records stored under [name], none when the key is
    absent. *)
Definition entries (result : usageIndex) (name : string) : list (gmap string string) :=
  default [] (result !! name).

(** A loop body [step] that, for every metric name, appends the records
    [contrib a name] under that name and creates the key only when there
    is something to append. *)
Definition appends {A} (step : usageIndex -> A -> usageIndex)
    (contrib : A -> string -> list (gmap string string)) : Prop :=
  forall result a name,
    entries (step result a) name = entries result name ++ contrib a name
    /\ (step result a !! name = None
        <-> result !! name = None /\ contrib a name = []).

(** ** An in-memory store

    Rows keep the stored JSON text; reading a row decodes it. *)

Record memRow : Type := {
  memRow_meta : Dashboard;
  memRow_data : string
}.

Definition memGet (json_Unmarshal : string -> option Data)
    (st : list memRow) (uuid : string) : option Dashboard :=
  match find (fun r => String.eqb (Dashboard_Uuid (memRow_meta r)) uuid) st with
  | Some r =>
      match json_Unmarshal (memRow_data r) with
      | Some data =>
          let d := memRow_meta r in
          Some {| Dashboard_Id := Dashboard_Id d;
                  Dashboard_Uuid := Dashboard_Uuid d;
                  Dashboard_Slug := Dashboard_Slug d;
                  Dashboard_CreatedAt := Dashboard_CreatedAt d;
                  Dashboard_CreateBy := Dashboard_CreateBy d;
                  Dashboard_UpdatedAt := Dashboard_UpdatedAt d;
                  Dashboard_UpdateBy := Dashboard_UpdateBy d;
                  Dashboard_Title := Dashboard_Title d;
                  Dashboard_Data := data;
                  Dashboard_Locked := Dashboard_Locked d |}
      | None => None
      end
  | None => None
  end.

Definition memUpdateRow (updatedAt : Z) (updatedBy mapData uuid : string)
    (r : memRow) : memRow :=
  let d := memRow_meta r in
  if String.eqb (Dashboard_Uuid d) uuid then
    {| memRow_meta :=
         {| Dashboard_Id := Dashboard_Id d;
            Dashboard_Uuid := Dashboard_Uuid d;
            Dashboard_Slug := Dashboard_Slug d;
            Dashboard_CreatedAt := Dashboard_CreatedAt d;
            Dashboard_CreateBy := Dashboard_CreateBy d;
            Dashboard_UpdatedAt := updatedAt;
            Dashboard_UpdateBy := Some updatedBy;
            Dashboard_Title := Dashboard_Title d;
            Dashboard_Data := Dashboard_Data d;
            Dashboard_Locked := Dashboard_Locked d |};
       memRow_data := mapData |}
  else r.

Definition memStore (json_Unmarshal : string -> option Data)
    : Store (list memRow) :=
  {| db_Get := memGet json_Unmarshal;
     db_Exec_update := fun st updatedAt updatedBy mapData uuid =>
       (map (memUpdateRow updatedAt updatedBy mapData uuid) st, None);
     db_Select := fun st =>
       Success (map (fun r => {| dashboardRow_Uuid := Dashboard_Uuid (memRow_meta r);
                            dashboardRow_Data := memRow_data r |}) st) |}.

(** A decoder defined on the texts of a given list of documents: it
    returns the first listed document that [json.Marshal] writes as
    [text]. *)
Definition unmarshalAmong (known : list Data) (text : string) : option Data :=
  find (fun d => match json.Marshal d with
                 | Success s => String.eqb s text
                 | Failure _ => false
                 end) known.

(** What the second loop of [getIdDifference] maintains: [differenceMap] marks exactly the
    identifiers already appended. *)
Definition marks (difference : list string) (differenceMap : gmap string bool) : Prop :=
  forall id, default false (differenceMap !! id) = true <-> id ∈ difference.



(** The query specification of a widget, when the widget and its [query]
    are mappings. *)
Definition queryOf (w : value) : option (gmap string value) :=
  match asMap w with
  | Some sData => asMap (field sData "query")
  | None => None
  end.

(** A widget with a raw query: [queryType] is ["clickhouse_sql"] and the
    [clickhouse_sql] field is present. *)
Definition isClickhouseWidget (w : value) : bool :=
  match queryOf w with
  | Some query =>
      eqString (field query "queryType") "clickhouse_sql"
      && notNil (field query "clickhouse_sql")
  | None => false
  end.

Definition hasClickhouseWidget (data : Data) : bool :=
  match asSlice (index data "widgets") with
  | Some widgets => existsb isClickhouseWidget widgets
  | None => false
  end.

(** A widget whose [queryType] is ["builder"]. *)
Definition isBuilderWidget (w : value) : bool :=
  match queryOf w with
  | Some query => eqString (field query "queryType") "builder"
  | None => false
  end.

Definition hasBuilderWidget (data : Data) : bool :=
  match asSlice (index data "widgets") with
  | Some widgets => existsb isBuilderWidget widgets
  | None => false
  end.

(** The serialization of the document contains [fingerprint]. *)
Definition serializationContains (data : Data) (fingerprint : string) : Prop :=
  exists text, json.Marshal data = Success text
               /\ strings.Contains text fingerprint = true.

(** The values [encoding/json] decodes into: no [map[string]string] and no
    number outside the finite ones. *)
Inductive decoded : value -> Prop :=
| decoded_nil : decoded VNil
| decoded_bool b : decoded (VBool b)
| decoded_float64 text : decoded (VFloat64 (Finite text))
| decoded_string s : decoded (VString s)
| decoded_slice l : Forall decoded l -> decoded (VSlice l)
| decoded_map m : (forall k v, m !! k = Some v -> decoded v) -> decoded (VMap m).

Definition decodedData (data : Data) : Prop :=
  match data with
  | Some m => decoded (VMap m)
  | None => True
  end.

(** The filter items of a builder query item: the elements of
    [filters.items]. *)
Definition filterItems (data : gmap string value) : list value :=
  match asMap (field data "filters") with
  | Some filters => default [] (asSlice (field filters "items"))
  | None => []
  end.


(** ** Example documents *)

Definition obj (l : list (string * value)) : value := VMap (list_to_map l).

(** One builder widget with a logs item filtered by
    [message contains ...], as decoded from JSON. *)
Definition logsContainsItem : value :=
  obj [("dataSource", VString "logs");
       ("filters", obj [("items", VSlice [
          obj [("op", VString "contains");
               ("key", obj [("key", VString "message")])]])])].

Definition logsContainsDoc : Data :=
  Some (list_to_map [
    ("title", VString "Logs");
    ("widgets", VSlice [
       obj [("id", VString "w1");
            ("query", obj [
               ("queryType", VString "builder");
               ("builder", obj [("queryData", VSlice [logsContainsItem])])])]])]).

(** The same document built in memory with the filter key held in a
    [map[string]string]. *)
Definition logsContainsDocTyped : Data :=
  Some (list_to_map [
    ("title", VString "Logs");
    ("widgets", VSlice [
       obj [("id", VString "w1");
            ("query", obj [
               ("queryType", VString "builder");
               ("builder", obj [("queryData", VSlice [
                  obj [("dataSource", VString "logs");
                       ("filters", obj [("items", VSlice [
                          obj [("op", VString "contains");
                               ("key", VMapString {[ "key" := "message" ]})]])])]])])])]])]).

(** A document without widgets whose title mentions the logs table. *)
Definition titleOnlyDoc : Data :=
  Some (list_to_map [("title", VString "signoz_logs.logs")]).

(** A document with a raw-query widget on the logs table. *)
Definition clickhouseDoc : Data :=
  Some (list_to_map [
    ("title", VString "Raw");
    ("widgets", VSlice [
       obj [("id", VString "w1");
            ("query", obj [
               ("queryType", VString "clickhouse_sql");
               ("clickhouse_sql", VSlice [
                  obj [("query", VString "SELECT count() FROM signoz_logs.logs")]])])]])]).

(** A document with an empty title and one widget. *)
Definition untitledDoc : Data :=
  Some (list_to_map [("title", VString EmptyString); ("widgets", VSlice [VNil])]).

(** A titled document with one widget. *)
Definition titledDoc : Data :=
  Some (list_to_map [("title", VString "CPU"); ("widgets", VSlice [VNil])]).

(** A widget with one metrics item on [key], under the given query
    type (none when [queryType] is [VNil]), and its parts. *)
Definition metricsItem (key : string) : value :=
  obj [("dataSource", VString "metrics");
       ("aggregateAttribute", obj [("key", VString key)])].

Definition metricsBuilder (key : string) : gmap string value :=
  list_to_map [("queryData", VSlice [metricsItem key])].

Definition metricsQuery (queryType : value) (key : string) : gmap string value :=
  list_to_map (
    match queryType with
    | VNil => []
    | _ => [("queryType", queryType)]
    end
    ++ [("builder", VMap (metricsBuilder key))]).

Definition metricsWidgetMap (queryType : value) (key : string)
    : gmap string value :=
  list_to_map [("id", VString "w1");
               ("title", VString "CPU");
               ("query", VMap (metricsQuery queryType key))].

Definition metricsWidget (queryType : value) (key : string) : value :=
  VMap (metricsWidgetMap queryType key).

(** A dashboard whose builder widget reads the metric [" cpu_usage "],
    written with surrounding blanks. *)
Definition cpuDoc : Data :=
  Some (list_to_map [
    ("title", VString "Hosts");
    ("widgets", VSlice [metricsWidget (VString "builder") " cpu_usage "])]).

(** The same widget declared as a raw query. *)
Definition cpuRawDoc : Data :=
  Some (list_to_map [
    ("title", VString "Hosts");
    ("widgets", VSlice [metricsWidget (VString "clickhouse_sql") " cpu_usage "])]).

(** Two counter records that agree on the four panel counts. *)
Definition samePanels (c1 c2 : panelCounters) : Prop :=
  logsPanelCount c1 = logsPanelCount c2
  /\ tracesPanelCount c1 = tracesPanelCount c2
  /\ metricsPanelCount c1 = metricsPanelCount c2
  /\ logsPanelsWithAttrContains c1 = logsPanelsWithAttrContains c2.



(** A document with the same metrics widget twice, once as a builder
    query and once as a raw query. *)
Definition mixedDoc : Data :=
  Some (list_to_map [
    ("title", VString "Hosts");
    ("widgets", VSlice [metricsWidget (VString "builder") " cpu_usage ";
                         metricsWidget (VString "clickhouse_sql") " cpu_usage "])]).

(** A dashboard with one builder widget per identifier. *)
Definition widgetsDoc (ids : list string) : Data :=
  Some (list_to_map [
    ("title", VString "Panels");
    ("widgets", VSlice (map (fun id =>
       obj [("id", VString id);
            ("query", obj [("queryType", VString "builder")])]) ids))]).

(** The text stored for a document. *)
Definition textOf (data : Data) : string :=
  match json.Marshal data with
  | Success text => text
  | Failure _ => EmptyString
  end.

(** A store holding the given documents under the given uuids, unlocked. *)
Definition storeOf (docs : list (string * Data)) : list memRow :=
  map (fun '(uuid, data) =>
         {| memRow_meta :=
              {| Dashboard_Id := 1;
                 Dashboard_Uuid := uuid;
                 Dashboard_Slug := EmptyString;
                 Dashboard_CreatedAt := 0;
                 Dashboard_CreateBy := None;
                 Dashboard_UpdatedAt := 0;
                 Dashboard_UpdateBy := None;
                 Dashboard_Title := EmptyString;
                 Dashboard_Data := None;
                 Dashboard_Locked := None |};
            memRow_data := textOf data |}) docs.

(** * Properties *)

(** ** The library models on examples *)

Example TrimSpace_blanks : strings.TrimSpace " cpu_usage " = "cpu_usage".
Proof. reflexivity. Qed.

Example TrimSpace_inner : strings.TrimSpace "  a b	" = "a b".
Proof. reflexivity. Qed.

(** U+00A0 and U+3000 are white space, U+4E2D is not. *)
Example TrimSpace_unicode :
  strings.TrimSpace
    (String (ascii_of_N 0xC2) (String (ascii_of_N 0xA0)
       (String (ascii_of_N 0xE4) (String (ascii_of_N 0xB8) (String (ascii_of_N 0xAD)
          (String (ascii_of_N 0xE3) (String (ascii_of_N 0x80)
             (String (ascii_of_N 0x80) EmptyString))))))))
  = String (ascii_of_N 0xE4) (String (ascii_of_N 0xB8)
      (String (ascii_of_N 0xAD) EmptyString)).
Proof. vm_compute. reflexivity. Qed.

Example Contains_middle :
  strings.Contains "FROM signoz_logs.logs WHERE" "signoz_logs.logs" = true
  /\ strings.Contains "FROM signoz_logs.log" "signoz_logs.logs" = false.
Proof. split; reflexivity. Qed.

(** Keys are sorted, [<] is escaped, and a nested [map[string]string] is
    written like any object. *)
Example Marshal_document :
  json.Marshal
    (Some (list_to_map
       [("widgets", VSlice [VNil; VBool true; VFloat64 (Finite "1.5")]);
        ("title", VString "a<b");
        ("key", VMapString {[ "key" := "body" ]})]))
  = Success (String.concat json.quote
      ["{"; "key"; ":{"; "key"; ":"; "body"; "},"; "title"; ":"; "a\u003cb";
       ","; "widgets"; ":[null,true,1.5]}"]).
Proof. vm_compute. reflexivity. Qed.

Example Marshal_unsupported :
  json.Marshal (Some {[ "x" := VSlice [VFloat64 (Finite "1"); VFloat64 NaN] ]})
  = Failure "json: unsupported value: NaN".
Proof. vm_compute. reflexivity. Qed.

(** ** [getIdDifference] *)

Lemma newIdsMap_lookup (newIds : list string) (m : gmap string bool) (id : string) :
  is_Some (fold_left (fun (m : gmap string bool) id => <[id := true]> m) newIds m !! id)
  <-> id ∈ newIds \/ is_Some (m !! id).
Proof.
  revert m. induction newIds as [|x newIds IH]; intros m; simpl.
  - rewrite elem_of_nil. tauto.
  - rewrite IH, elem_of_cons, lookup_insert.
    case_decide; subst.
    + split; [intros _; by left; left | intros _; right; eauto].
    + split; [intros [?|?]; [left; by right | by right] | intros [[?|?]|?]; [congruence | by left | by right]].
Qed.

Lemma marks_empty : marks [] ∅.
Proof. intros id. rewrite lookup_empty, elem_of_nil. simpl. split; [discriminate | tauto]. Qed.

Lemma marks_insert difference differenceMap id :
  marks difference differenceMap ->
  marks (difference ++ [id]) (<[id := true]> differenceMap).
Proof.
  intros H x. rewrite elem_of_app, list_elem_of_singleton, lookup_insert.
  case_decide; subst; simpl.
  - split; [by right | done].
  - rewrite (H x). split; [by left | intros [?|?]; [done | congruence]].
Qed.

Lemma filter_all {A} (P : A -> Prop) `{forall x, Decision (P x)} (l : list A) :
  (forall x, x ∈ l -> P x) -> filter P l = l.
Proof.
  induction l as [|a l IH]; intros Hall; [done|].
  rewrite filter_cons_True by (apply Hall; by left).
  f_equal. apply IH. intros x Hx. apply Hall. by right.
Qed.

Lemma filter_drop_seen (d : list string) (x : string) (K : list string) :
  x ∈ d ->
  filter (fun y => y ∉ d) (filter (fun y => y <> x) K) = filter (fun y => y ∉ d) K.
Proof.
  intros Hx. apply list_filter_filter_l. intros y Hy ->. done.
Qed.

Lemma filter_snoc_seen (d : list string) (x : string) (K : list string) :
  filter (fun y => y ∉ d ++ [x]) K
  = filter (fun y => y ∉ d) (filter (fun y => y <> x) K).
Proof.
  rewrite list_filter_filter. apply list_filter_iff. intros y.
  rewrite elem_of_app, list_elem_of_singleton. tauto.
Qed.

Lemma diff_loop (newIds existingIds : list string) :
  forall difference differenceMap,
    marks difference differenceMap ->
    fst (fold_left
           (diffStep (fold_left (fun (m : gmap string bool) id => <[id := true]> m) newIds ∅))
           existingIds (difference, differenceMap))
    = (difference
       ++ filter (fun y => y ∉ difference)
            (keepFirst (filter (fun id => id ∉ newIds) existingIds)))%list.
Proof.
  induction existingIds as [|x l IH]; intros d dm Hm; simpl.
  - by rewrite app_nil_r.
  - destruct (decide (x ∈ newIds)) as [Hin|Hnin].
    + rewrite filter_cons_False by tauto.
      rewrite bool_decide_eq_true_2; [simpl; by apply IH|].
      apply newIdsMap_lookup. by left.
    + rewrite filter_cons_True by done.
      rewrite bool_decide_eq_false_2; simpl.
      2:{ rewrite newIdsMap_lookup, lookup_empty. intros [?|[? ?]]; [done | discriminate]. }
      destruct (default false (dm !! x)) eqn:Hd; simpl.
      * apply Hm in Hd. rewrite IH by done.
        rewrite filter_cons_False by tauto.
        by rewrite filter_drop_seen.
      * assert (x ∉ d) as Hxd by (rewrite <- (Hm x), Hd; discriminate).
        rewrite IH by (by apply marks_insert).
        rewrite filter_cons_True by done.
        rewrite filter_snoc_seen, <- app_assoc. done.
Qed.

(** The code computes the documented difference. *)
Lemma getIdDifference_spec_diff (existingIds newIds : list string) :
  getIdDifference existingIds newIds = spec_diff existingIds newIds.
Proof.
  unfold getIdDifference, spec_diff.
  rewrite (diff_loop newIds existingIds [] ∅ marks_empty). simpl.
  apply filter_all. intros x _. apply not_elem_of_nil.
Qed.

Lemma keepFirst_elem_of (l : list string) (x : string) :
  x ∈ keepFirst l <-> x ∈ l.
Proof.
  induction l as [|a l IH]; simpl; [done|].
  rewrite !elem_of_cons, list_elem_of_filter, IH.
  destruct (decide (x = a)); tauto.
Qed.

Lemma keepFirst_NoDup (l : list string) : NoDup (keepFirst l).
Proof.
  induction l as [|a l IH]; simpl; [constructor|].
  constructor; [| by apply NoDup_filter].
  rewrite list_elem_of_filter. tauto.
Qed.

(** Splitting a filtered list splits the list it came from. *)
Lemma filter_split {A} (P : A -> Prop) `{forall x, Decision (P x)}
    (l r1 r2 : list A) (x : A) :
  filter P l = r1 ++ x :: r2 ->
  exists e1 e2, l = e1 ++ x :: e2 /\ filter P e1 = r1 /\ filter P e2 = r2 /\ P x.
Proof.
  revert r1. induction l as [|a l IH]; intros r1 Heq.
  - destruct r1; discriminate.
  - destruct (decide (P a)) as [Ha|Ha].
    + rewrite filter_cons_True in Heq by done.
      destruct r1 as [|b r1]; simpl in Heq; injection Heq as -> Heq.
      * exists [], l. by rewrite filter_nil.
      * destruct (IH _ Heq) as (e1 & e2 & -> & <- & <- & Hx).
        exists (b :: e1), e2. by rewrite filter_cons_True.
    + rewrite filter_cons_False in Heq by done.
      destruct (IH _ Heq) as (e1 & e2 & -> & <- & <- & Hx).
      exists (a :: e1), e2. by rewrite filter_cons_False.
Qed.

(** First-seen order: whatever follows [x] in [keepFirst l] does not
    occur in [l] before the first [x]. *)
Lemma keepFirst_order (l r1 r2 : list string) (x : string) :
  keepFirst l = r1 ++ x :: r2 ->
  exists e1 e2, l = e1 ++ x :: e2 /\ (x ∉ e1) /\ (forall y, y ∈ r2 -> y ∉ e1).
Proof.
  revert r1 r2. induction l as [|a l IH]; intros r1 r2 Heq; simpl in Heq.
  - destruct r1; discriminate.
  - destruct r1 as [|b r1]; simpl in Heq; injection Heq as -> Heq.
    + exists [], l. split_and!; [done | apply not_elem_of_nil | intros; apply not_elem_of_nil].
    + apply filter_split in Heq as (k1 & k2 & Hk & <- & <- & Hx).
      destruct (IH _ _ Hk) as (e1 & e2 & -> & Hx1 & Hy).
      exists (b :: e1), e2. split_and!; [done | |].
      * rewrite not_elem_of_cons. done.
      * intros y [Hyb Hy2]%list_elem_of_filter.
        rewrite not_elem_of_cons. split; [done | by apply Hy].
Qed.

(** *** Claim C4.
    [getIdDifference existingIds newIds] is the documented difference:
    it holds exactly the identifiers of [existingIds] that do not occur
    in [newIds], holds none of them twice, and lists them in the order of
    their first occurrence in [existingIds] (whatever comes after [x] in
    the result does not occur in [existingIds] before the first [x]); on
    [w1, w2, w3] against [w1, w3] it gives [w2]. *)
Theorem getIdDifference_correct (existingIds newIds : list string) :
  getIdDifference existingIds newIds = spec_diff existingIds newIds
  /\ (forall id, id ∈ getIdDifference existingIds newIds
                 <-> id ∈ existingIds /\ id ∉ newIds)
  /\ NoDup (getIdDifference existingIds newIds)
  /\ (forall r1 x r2,
        getIdDifference existingIds newIds = r1 ++ x :: r2 ->
        exists e1 e2, existingIds = e1 ++ x :: e2 /\ (x ∉ e1)
                      /\ (forall y, y ∈ r2 -> y ∉ e1))
  /\ getIdDifference ["w1"; "w2"; "w3"] ["w1"; "w3"] = ["w2"].
Proof.
  rewrite getIdDifference_spec_diff. unfold spec_diff.
  split_and!.
  - done.
  - intros id. rewrite keepFirst_elem_of, list_elem_of_filter. tauto.
  - apply keepFirst_NoDup.
  - intros r1 x r2 Heq.
    assert (forall y, y ∈ x :: r2 -> y ∉ newIds) as Hout.
    { intros y Hy.
      assert (y ∈ keepFirst (filter (fun id => id ∉ newIds) existingIds)) as Hin
        by (rewrite Heq, elem_of_app; by right).
      rewrite keepFirst_elem_of, list_elem_of_filter in Hin. tauto. }
    apply keepFirst_order in Heq as (f1 & f2 & Hf & Hx & Hy).
    apply filter_split in Hf as (e1 & e2 & -> & <- & <- & _).
    exists e1, e2. split_and!; [done | |].
    + intros Hin. apply Hx, list_elem_of_filter. split; [|done].
      apply Hout. by left.
    + intros y Hy2 Hin. apply (Hy y Hy2), list_elem_of_filter. split; [|done].
      apply Hout. by right.
  - reflexivity.
Qed.

(** On [w1, w2, w3] against [w1] the difference is [w2, w3], in that
    order: [w3], which follows [w2] in it, first occurs after [w2]. *)
Lemma getIdDifference_correct_witness :
  exists e1 e2, ["w1"; "w2"; "w3"] = e1 ++ "w2" :: e2
                /\ ("w2" ∉ e1) /\ (forall y, y ∈ ["w3"] -> y ∉ e1).
Proof.
  apply (proj1 (proj2 (proj2 (proj2
           (getIdDifference_correct ["w1"; "w2"; "w3"] ["w1"]))))
           [] "w2" ["w3"]).
  reflexivity.
Defined.

(** *** Claim C8.
    The difference of a sequence with itself is empty. *)
Theorem getIdDifference_self (A : list string) :
  getIdDifference A A = [].
Proof.
  rewrite getIdDifference_spec_diff. unfold spec_diff.
  replace (filter (fun id => id ∉ A) A) with (@nil string); [done|].
  symmetry. induction A as [|a l IH] using rev_ind; [done|].
  rewrite filter_app, filter_cons_False, filter_nil, app_nil_r
    by (rewrite elem_of_app, list_elem_of_singleton; tauto).
  destruct (filter (fun id => id ∉ l ++ [a]) l) as [|y ?] eqn:Hf; [done|].
  assert (y ∈ filter (fun id => id ∉ l ++ [a]) l) as Hy by (rewrite Hf; by left).
  rewrite list_elem_of_filter, elem_of_app in Hy. tauto.
Qed.

(** ** Reading fields *)

Lemma field_insert_eq (m : gmap string value) (k : string) (v : value) :
  field (<[k := v]> m) k = v.
Proof. unfold field. by rewrite lookup_insert_eq. Qed.

Lemma field_insert_ne (m : gmap string value) (k k' : string) (v : value) :
  k <> k' -> field (<[k := v]> m) k' = field m k'.
Proof. intros. unfold field. by rewrite lookup_insert_ne. Qed.

Lemma field_delete_ne (m : gmap string value) (k k' : string) :
  k <> k' -> field (delete k m) k' = field m k'.
Proof. intros. unfold field. by rewrite lookup_delete_ne. Qed.

Lemma asSlice_Some (v : value) (l : list value) :
  asSlice v = Some l <-> v = VSlice l.
Proof. destruct v; simpl; split; congruence. Qed.

Lemma asMap_Some (v : value) (m : gmap string value) :
  asMap v = Some m <-> v = VMap m.
Proof. destruct v; simpl; split; congruence. Qed.

Lemma eqString_true (v : value) (s : string) :
  eqString v s = true <-> v = VString s.
Proof.
  destruct v; simpl; try (split; congruence).
  rewrite String.eqb_eq. split; congruence.
Qed.

(** ** [isDashboardWithPanelAndName] *)

(** *** Claim C5, as the code has it.
    The flag is true exactly when [title] is a string other than
    ["Sample Title"] (the empty string included) and [widgets] is an array
    with at least one element. *)
Theorem isDashboardWithPanelAndName_iff (data : Data) :
  isDashboardWithPanelAndName data = true
  <-> exists title widgets,
        index data "title" = VString title
        /\ title <> "Sample Title"
        /\ index data "widgets" = VSlice widgets
        /\ widgets <> [].
Proof.
  destruct data as [m|]; simpl.
  2:{ split; [discriminate | intros (? & ? & ? & _); discriminate]. }
  unfold field.
  destruct (m !! "title") as [[| | |s| | |]|], (m !! "widgets") as [[| | | |ws| |]|];
    simpl;
    try (destruct (String.eqb_spec s "Sample Title"); simpl);
    try (destruct ws as [|w ws]; simpl);
    try (split; [discriminate | intros (? & ? & ? & ? & ? & ?); congruence]).
  split; [intros _ | done].
  exists s, (w :: ws). done.
Qed.

(** The documented condition asks for a non-empty title: the code accepts
    the empty one. *)
Lemma isDashboardWithPanelAndName_empty_title :
  ~ (isDashboardWithPanelAndName untitledDoc = true
     <-> spec_hasPanelAndName untitledDoc).
Proof.
  intros [H _]. destruct (H eq_refl) as (title & ws & Ht & Hne & _).
  vm_compute in Ht. injection Ht as <-. done.
Qed.

Lemma isDashboardWithPanelAndName_iff_witness :
  isDashboardWithPanelAndName titledDoc = true.
Proof.
  apply (isDashboardWithPanelAndName_iff titledDoc).
  exists "CPU", [VNil]. by vm_compute.
Defined.

(** ** [getWidgetIds] *)





(** ** [countPanelsInDashboard] *)

Lemma countPanelsInDashboard_unfold (data : Data) :
  countPanelsInDashboard data
  = summary (fold_left (countWidget data)
               (default [] (asSlice (index data "widgets"))) zeroCounters).
Proof.
  unfold countPanelsInDashboard. destruct data as [m|]; simpl; [|done].
  unfold field. by destruct (m !! "widgets") as [[| | | |ws| |]|].
Qed.

(** The inner loop leaves the two raw-query flags alone. *)
Lemma countQueryData_flags (l : list value) (c : panelCounters) :
  logChQueryCount (fold_left countQueryData l c) = logChQueryCount c
  /\ traceChQueryCount (fold_left countQueryData l c) = traceChQueryCount c.
Proof.
  revert c. induction l as [|qd l IH]; intros c; simpl; [done|].
  destruct (IH (countQueryData c qd)) as [-> ->].
  unfold countQueryData. by repeat case_match.
Qed.

Lemma countWidget_flags (data : Data) (c : panelCounters) (w : value) :
  logChQueryCount (countWidget data c w)
  = (if isClickhouseWidget w && isDashboardWithLogsClickhouseQuery data
     then 1 else logChQueryCount c)
  /\ traceChQueryCount (countWidget data c w)
     = (if isClickhouseWidget w && isDashboardWithTracesClickhouseQuery data
        then 1 else traceChQueryCount c).
Proof.
  unfold countWidget, isClickhouseWidget, queryOf.
  destruct (asMap w) as [sData|]; simpl; [|done].
  destruct (asMap (field sData "query")) as [query|] eqn:Hq; simpl.
  2:{ by destruct (notNil _). }
  apply asMap_Some in Hq. rewrite Hq. simpl.
  destruct (eqString (field query "queryType") "builder") eqn:Hb; simpl.
  - apply eqString_true in Hb. rewrite Hb. simpl.
    destruct (notNil (field query "builder")); simpl.
    + repeat case_match; try done; apply countQueryData_flags.
    + done.
  - destruct (eqString (field query "queryType") "clickhouse_sql"
              && notNil (field query "clickhouse_sql")); simpl; [|done].
    by repeat case_match.
Qed.

Lemma countWidgets_flags (data : Data) (ws : list value) (c : panelCounters) :
  logChQueryCount (fold_left (countWidget data) ws c)
  = (if existsb isClickhouseWidget ws && isDashboardWithLogsClickhouseQuery data
     then 1 else logChQueryCount c)
  /\ traceChQueryCount (fold_left (countWidget data) ws c)
     = (if existsb isClickhouseWidget ws && isDashboardWithTracesClickhouseQuery data
        then 1 else traceChQueryCount c).
Proof.
  revert c. induction ws as [|w ws IH]; intros c; simpl; [done|].
  destruct (IH (countWidget data c w)) as [-> ->].
  destruct (countWidget_flags data c w) as [-> ->].
  destruct (isClickhouseWidget w), (existsb isClickhouseWidget ws),
    (isDashboardWithLogsClickhouseQuery data),
    (isDashboardWithTracesClickhouseQuery data); done.
Qed.





(** ** The raw-query flags *)

Lemma isDashboardWithLogsClickhouseQuery_iff (data : Data) :
  isDashboardWithLogsClickhouseQuery data = true
  <-> serializationContains data "signoz_logs.distributed_logs"
      \/ serializationContains data "signoz_logs.logs".
Proof.
  unfold isDashboardWithLogsClickhouseQuery, serializationContains.
  destruct (json.Marshal data) as [text|e].
  - rewrite orb_true_iff. split.
    + intros [H|H]; [left | right]; by exists text.
    + intros [(t & [= <-] & H)|(t & [= <-] & H)]; tauto.
  - split; [discriminate | intros [(t & ? & _)|(t & ? & _)]; discriminate].
Qed.

Lemma isDashboardWithTracesClickhouseQuery_iff (data : Data) :
  isDashboardWithTracesClickhouseQuery data = true
  <-> serializationContains data "signoz_traces.distributed_signoz_index_v2"
      \/ serializationContains data "signoz_traces.distributed_signoz_spans"
      \/ serializationContains data "signoz_traces.distributed_signoz_error_index_v2".
Proof.
  unfold isDashboardWithTracesClickhouseQuery, serializationContains.
  destruct (json.Marshal data) as [text|e].
  - rewrite !orb_true_iff. split.
    + intros [[H|H]|H]; [left | right; left | right; right]; by exists text.
    + intros [(t & [= <-] & H)|[(t & [= <-] & H)|(t & [= <-] & H)]]; tauto.
  - split; [discriminate | intros [(t & ? & _)|[(t & ? & _)|(t & ? & _)]]; discriminate].
Qed.

(** *** Claim C2, as the code has it.
    The raw-logs flag is 1 exactly when the document has a widget whose
    query has [queryType] ["clickhouse_sql"] with a [clickhouse_sql] field
    and the serialization of the whole document contains
    ["signoz_logs.distributed_logs"] or ["signoz_logs.logs"], wherever it
    occurs; otherwise it is 0.  The raw-traces flag is the same with the
    three traces fingerprints.  Neither flag exceeds 1. *)
Theorem clickhouse_flags (data : Data) :
  DashboardsWithLogsChQuery (countPanelsInDashboard data)
  = (if hasClickhouseWidget data && isDashboardWithLogsClickhouseQuery data
     then 1 else 0)
  /\ DashboardsWithTraceChQuery (countPanelsInDashboard data)
     = (if hasClickhouseWidget data && isDashboardWithTracesClickhouseQuery data
        then 1 else 0)
  /\ (isDashboardWithLogsClickhouseQuery data = true
      <-> serializationContains data "signoz_logs.distributed_logs"
          \/ serializationContains data "signoz_logs.logs")
  /\ (isDashboardWithTracesClickhouseQuery data = true
      <-> serializationContains data "signoz_traces.distributed_signoz_index_v2"
          \/ serializationContains data "signoz_traces.distributed_signoz_spans"
          \/ serializationContains data "signoz_traces.distributed_signoz_error_index_v2")
  /\ (hasClickhouseWidget data = true ->
      serializationContains data "signoz_logs.distributed_logs"
      \/ serializationContains data "signoz_logs.logs" ->
      DashboardsWithLogsChQuery (countPanelsInDashboard data) = 1).
Proof.
  assert (DashboardsWithLogsChQuery (countPanelsInDashboard data)
          = (if hasClickhouseWidget data && isDashboardWithLogsClickhouseQuery data
             then 1 else 0)
          /\ DashboardsWithTraceChQuery (countPanelsInDashboard data)
             = (if hasClickhouseWidget data && isDashboardWithTracesClickhouseQuery data
                then 1 else 0)) as [Hl Ht].
  { rewrite countPanelsInDashboard_unfold. unfold hasClickhouseWidget. simpl.
    destruct (asSlice (index data "widgets")) as [ws|]; simpl; [|done].
    apply countWidgets_flags. }
  split_and!; try done.
  - apply isDashboardWithLogsClickhouseQuery_iff.
  - apply isDashboardWithTracesClickhouseQuery_iff.
  - intros Hw Hs. rewrite Hl, Hw.
    apply isDashboardWithLogsClickhouseQuery_iff in Hs. by rewrite Hs.
Qed.

(** The fingerprint alone does not set the flag: a document that carries
    it in its title and has no raw-query widget reports 0. *)
Lemma logs_flag_needs_clickhouse_widget :
  ~ (serializationContains titleOnlyDoc "signoz_logs.logs" ->
     DashboardsWithLogsChQuery (countPanelsInDashboard titleOnlyDoc) = 1).
Proof.
  intros H.
  assert (serializationContains titleOnlyDoc "signoz_logs.logs") as Hs.
  { eexists. split; [vm_compute; reflexivity | vm_compute; reflexivity]. }
  specialize (H Hs). vm_compute in H. discriminate.
Qed.

Lemma clickhouse_flags_witness :
  DashboardsWithLogsChQuery (countPanelsInDashboard clickhouseDoc) = 1.
Proof.
  apply (clickhouse_flags clickhouseDoc).
  - vm_compute. reflexivity.
  - right. eexists. split; vm_compute; reflexivity.
Defined.

(** ** Flagged filter operators *)

Lemma decoded_field (m : gmap string value) (k : string) :
  decoded (VMap m) -> decoded (field m k).
Proof.
  intros H. inversion H as [| | | | |m' Hm]; subst.
  unfold field. destruct (m !! k) as [v|] eqn:Hk; simpl; [by eapply Hm | constructor].
Qed.

Lemma decoded_asMap (v : value) (m : gmap string value) :
  decoded v -> asMap v = Some m -> decoded (VMap m).
Proof. intros H ->%asMap_Some. done. Qed.

Lemma decoded_asSlice (v : value) (l : list value) :
  decoded v -> asSlice v = Some l -> Forall decoded l.
Proof. intros H ->%asSlice_Some. by inversion H. Qed.

Lemma decoded_not_MapString (v : value) : decoded v -> asMapString v = None.
Proof. by intros []. Qed.

(** On a decoded filter item the assertion of [key] to [map[string]string]
    fails, so the item is never counted. *)
Lemma countAttrContains_decoded (n : Z) (item : value) :
  decoded item -> countAttrContains n item = n.
Proof.
  intros H. unfold countAttrContains.
  destruct (asMap item) as [itemMap|] eqn:Hi; [|done].
  rewrite (decoded_not_MapString (field itemMap "key"))
    by (eapply decoded_field, decoded_asMap; eauto).
  by repeat case_match.
Qed.

Lemma checkLogPanelAttrContains_decoded (data : gmap string value) :
  decoded (VMap data) -> checkLogPanelAttrContains data = 0.
Proof.
  intros H. unfold checkLogPanelAttrContains.
  destruct (asMap (field data "filters")) as [filters|] eqn:Hf; [|done].
  assert (decoded (VMap filters)) as Hd
    by (eapply decoded_asMap; [apply decoded_field|]; eauto).
  destruct (notNil _); [|done].
  destruct (asSlice (field filters "items")) as [items|] eqn:Hi; [|done].
  assert (Forall decoded items) as Hall
    by (eapply decoded_asSlice; [apply decoded_field|]; eauto).
  clear Hi. generalize 0.
  induction Hall as [|item items Hitem _ IH]; intros n; simpl; [done|].
  by rewrite countAttrContains_decoded, IH.
Qed.

Lemma countQueryData_decoded (l : list value) (c : panelCounters) :
  Forall decoded l ->
  logsPanelsWithAttrContains (fold_left countQueryData l c)
  = logsPanelsWithAttrContains c.
Proof.
  intros Hall. revert c.
  induction Hall as [|qd l Hqd _ IH]; intros c; simpl; [done|].
  rewrite IH. unfold countQueryData.
  destruct (asMap qd) as [data|] eqn:Hd; [|done].
  repeat case_match; simpl; try done.
  rewrite checkLogPanelAttrContains_decoded; [lia|].
  by eapply decoded_asMap.
Qed.

Lemma countWidget_decoded (data : Data) (c : panelCounters) (w : value) :
  decoded w ->
  logsPanelsWithAttrContains (countWidget data c w) = logsPanelsWithAttrContains c.
Proof.
  intros Hw. unfold countWidget.
  destruct (asMap w) as [sData|] eqn:HsData; [|done].
  assert (decoded (VMap sData)) as Hs by (by eapply decoded_asMap).
  destruct (notNil _); [|done].
  destruct (asMap (field sData "query")) as [query|] eqn:Hquery; [|done].
  assert (decoded (VMap query)) as Hq
    by (eapply decoded_asMap; [apply decoded_field|]; eauto).
  destruct (_ && _).
  - destruct (asMap (field query "builder")) as [builderData|] eqn:Hb; [|done].
    assert (decoded (VMap builderData)) as Hbd
      by (eapply decoded_asMap; [apply decoded_field|]; eauto).
    destruct (notNil _); [|done].
    destruct (asSlice (field builderData "queryData")) as [qds|] eqn:Hqds; [|done].
    apply countQueryData_decoded.
    eapply decoded_asSlice; [apply decoded_field|]; eauto.
  - by destruct (_ && _).
Qed.

(** For a document decoded from JSON the count of flagged filter items is
    always zero. *)
Lemma decoded_never_flagged (data : Data) :
  decodedData data ->
  LogsPanelsWithAttrContainsOp (countPanelsInDashboard data) = 0.
Proof.
  intros Hd. rewrite countPanelsInDashboard_unfold. simpl.
  destruct (asSlice (index data "widgets")) as [ws|] eqn:Hws; simpl; [|done].
  assert (Forall decoded ws) as Hall.
  { destruct data as [m|]; [|done].
    eapply decoded_asSlice; [|exact Hws]. by apply decoded_field. }
  clear Hws.
  transitivity (logsPanelsWithAttrContains zeroCounters); [|done].
  generalize zeroCounters.
  induction Hall as [|w ws Hw _ IH]; intros c; simpl; [done|].
  by rewrite IH, countWidget_decoded.
Qed.

Lemma decoded_obj (l : list (string * value)) :
  Forall (fun kv => decoded kv.2) l -> decoded (obj l).
Proof.
  intros Hall. apply decoded_map. intros k v Hk%elem_of_list_to_map_2.
  rewrite Forall_forall in Hall. apply (Hall _ Hk).
Qed.

(** Checks that a document written with [obj] is a decoded one. *)
Ltac decoded_literal :=
  repeat match goal with
    | |- decoded VNil => apply decoded_nil
    | |- decoded (VBool _) => apply decoded_bool
    | |- decoded (VString _) => apply decoded_string
    | |- decoded (VFloat64 (Finite _)) => apply decoded_float64
    | |- decoded (VSlice _) => apply decoded_slice
    | |- decoded (obj _) => apply decoded_obj
    | |- decoded (snd _) => cbn [snd]
    | |- Forall _ (_ :: _) => apply Forall_cons
    | |- Forall _ [] => apply Forall_nil
    | |- _ /\ _ => split
    | |- True => exact I
    end.

Lemma logsContainsDoc_decoded : decodedData logsContainsDoc.
Proof.
  unfold logsContainsDoc, logsContainsItem, decodedData.
  apply (decoded_obj [("title", _); ("widgets", _)]). decoded_literal.
Qed.

(** *** Claim C1, evaluated on the code.
    For the decoded document with one builder widget whose only query item
    has [dataSource] ["logs"] and the single filter
    [{op: "contains", key: {key: "message"}}], the summary reports one
    logs panel, but the count of flagged filter items is 0 although the
    item is a flagged one: the code asserts [key] to [map[string]string],
    and the decoder yields [map[string]interface{}]. *)
Theorem logs_contains_filter_not_counted :
  decodedData logsContainsDoc
  /\ getWidgetIds logsContainsDoc = ["w1"]
  /\ LogsBasedPanels (countPanelsInDashboard logsContainsDoc) = 1
  /\ LogsPanelsWithAttrContainsOp (countPanelsInDashboard logsContainsDoc) = 0
  /\ (exists data, logsContainsItem = VMap data
                   /\ length (filter (fun item => spec_flagged item = true)
                                (filterItems data)) = 1%nat)
  /\ LogsPanelsWithAttrContainsOp (countPanelsInDashboard logsContainsDocTyped) = 1.
Proof.
  split_and!.
  - apply logsContainsDoc_decoded.
  - by vm_compute.
  - by vm_compute.
  - by vm_compute.
  - eexists. split; [reflexivity | by vm_compute].
  - by vm_compute.
Qed.

(** ** Panels are counted for builder queries only *)

Lemma countWidget_not_builder (data : Data) (c : panelCounters) (w : value) :
  isBuilderWidget w = false ->
  logsPanelCount (countWidget data c w) = logsPanelCount c
  /\ tracesPanelCount (countWidget data c w) = tracesPanelCount c
  /\ metricsPanelCount (countWidget data c w) = metricsPanelCount c
  /\ logsPanelsWithAttrContains (countWidget data c w) = logsPanelsWithAttrContains c.
Proof.
  unfold isBuilderWidget, queryOf, countWidget.
  destruct (asMap w) as [sData|]; [|done].
  destruct (notNil _); [|done].
  destruct (asMap (field sData "query")) as [query|]; [|done].
  intros ->. simpl. by destruct (_ && _).
Qed.

Lemma countWidgets_not_builder (data : Data) (ws : list value) (c : panelCounters) :
  existsb isBuilderWidget ws = false ->
  logsPanelCount (fold_left (countWidget data) ws c) = logsPanelCount c
  /\ tracesPanelCount (fold_left (countWidget data) ws c) = tracesPanelCount c
  /\ metricsPanelCount (fold_left (countWidget data) ws c) = metricsPanelCount c
  /\ logsPanelsWithAttrContains (fold_left (countWidget data) ws c)
     = logsPanelsWithAttrContains c.
Proof.
  revert c. induction ws as [|w ws IH]; intros c; simpl; [done|].
  intros [Hw Hws]%orb_false_elim.
  destruct (IH (countWidget data c w) Hws) as (-> & -> & -> & ->).
  by apply countWidget_not_builder.
Qed.

(** ** The metric usage index *)

Lemma entries_appendUsage (result : usageIndex) (metricName name : string)
    (rec : gmap string string) :
  entries (appendUsage result metricName rec) name
  = entries result name ++ (if decide (metricName = name) then [rec] else []).
Proof.
  unfold entries, appendUsage. rewrite lookup_insert.
  case_decide; subst; simpl; [done | by rewrite app_nil_r].
Qed.

Lemma appendUsage_None (result : usageIndex) (metricName name : string)
    (rec : gmap string string) :
  appendUsage result metricName rec !! name = None
  <-> result !! name = None /\ metricName <> name.
Proof.
  unfold appendUsage. rewrite lookup_insert.
  case_decide; subst; split; try done; [intros [? ?]; done | tauto].
Qed.

Lemma appends_fold {A} (step : usageIndex -> A -> usageIndex)
    (contrib : A -> string -> list (gmap string string)) :
  appends step contrib ->
  appends (fun result (l : list A) => fold_left step l result)
          (fun l name => a ← l; contrib a name).
Proof.
  intros Hstep result l name. revert result.
  induction l as [|a l IH]; intros result; simpl.
  - rewrite app_nil_r. tauto.
  - destruct (IH (step result a)) as [-> ->].
    destruct (Hstep result a name) as [-> ->].
    rewrite <- app_assoc. split; [done|].
    rewrite (app_nil (contrib a name)). tauto.
Qed.

Lemma appends_skip {A} : appends (fun result (_ : A) => result) (fun _ _ => []).
Proof. intros result a name. rewrite app_nil_r. tauto. Qed.

Lemma matchMetricNames_appends (key : string) (rec : gmap string string) :
  appends (fun result metricNames => matchMetricNames key rec metricNames result)
          (fun metricNames name => matched metricNames rec (strings.TrimSpace key) name).
Proof.
  intros result metricNames name. unfold matchMetricNames, matched.
  revert result. induction metricNames as [|m l IH]; intros result; simpl.
  - rewrite app_nil_r. tauto.
  - destruct (String.eqb_spec (strings.TrimSpace key) m) as [Heq|Hne].
    + destruct (IH (appendUsage result m rec)) as [-> ->].
      rewrite entries_appendUsage, appendUsage_None.
      destruct (decide (m = name)) as [->|Hn].
      * rewrite filter_cons_True by done. simpl. rewrite <- app_assoc. simpl.
        split; [done | split; [tauto | intros [_ ?]; done]].
      * rewrite filter_cons_False by tauto. rewrite app_nil_r. tauto.
    + destruct (IH result) as [-> ->].
      rewrite filter_cons_False by (intros [_ ?]; done). done.
Qed.

Lemma scanQueryData_appends (metricNames : list string) (rec : gmap string string) :
  appends (scanQueryData metricNames rec)
          (fun qd name =>
             match metricOf qd with
             | Some metric => matched metricNames rec metric name
             | None => []
             end).
Proof.
  intros result qd name. unfold scanQueryData, metricOf.
  destruct (asMap qd) as [data|]; [|apply (appends_skip result qd)].
  destruct (field data "dataSource") as [| | |ds| | |]; simpl;
    try apply (appends_skip result qd).
  destruct (String.eqb_spec ds "metrics") as [->|Hne]; simpl;
    [|apply (appends_skip result qd)].
  destruct (asMap (field data "aggregateAttribute")) as [attr|];
    [|apply (appends_skip result qd)].
  destruct (asString (field attr "key")) as [key|]; simpl;
    [|apply (appends_skip result qd)].
  apply (matchMetricNames_appends key rec result metricNames name).
Qed.

Lemma scanWidget_appends (metricNames : list string) (dashboardUuid dashTitle : string) :
  appends (scanWidget metricNames dashboardUuid dashTitle)
          (fun w name => widgetUsages metricNames name dashboardUuid dashTitle w).
Proof.
  intros result w name. unfold scanWidget, widgetUsages, builderItems.
  destruct (asMap w) as [widget|]; [|apply (appends_skip result w)].
  destruct (asMap (field widget "query")) as [query|];
    [|apply (appends_skip result w)].
  destruct (asMap (field query "builder")) as [builder|];
    [|apply (appends_skip result w)].
  destruct (asSlice (field builder "queryData")) as [queryData|];
    [|apply (appends_skip result w)].
  apply (appends_fold _ _ (scanQueryData_appends metricNames _) result queryData name).
Qed.

Lemma scanDashboard_appends (json_Unmarshal : string -> option Data)
    (metricNames : list string) :
  appends (scanDashboard json_Unmarshal metricNames)
          (fun row name =>
             w ← rowWidgets json_Unmarshal row;
             widgetUsages metricNames name (dashboardRow_Uuid row)
               (rowTitle json_Unmarshal row) w).
Proof.
  intros result row name. unfold scanDashboard, rowWidgets, rowTitle.
  destruct (json_Unmarshal (dashboardRow_Data row)) as [dashData|];
    [|apply (appends_skip result row)].
  destruct (asSlice (index dashData "widgets")) as [widgets|];
    [|apply (appends_skip result row)].
  apply (appends_fold _ _ (scanWidget_appends metricNames _ _) result widgets name).
Qed.

(** The index built over the rows, read at any name. *)
Lemma scanDashboards_spec (json_Unmarshal : string -> option Data)
    (metricNames : list string) (rows : list dashboardRow) (name : string) :
  entries (fold_left (scanDashboard json_Unmarshal metricNames) rows ∅) name
  = spec_usages json_Unmarshal rows metricNames name
  /\ (fold_left (scanDashboard json_Unmarshal metricNames) rows ∅ !! name = None
      <-> spec_usages json_Unmarshal rows metricNames name = []).
Proof.
  destruct (appends_fold _ _ (scanDashboard_appends json_Unmarshal metricNames)
              ∅ rows name) as [He Hn].
  split.
  - rewrite He. unfold entries. by rewrite lookup_empty.
  - rewrite Hn, lookup_empty. unfold spec_usages. tauto.
Qed.

Lemma elem_of_matched (metricNames : list string) (rec r : gmap string string)
    (metric name : string) :
  r ∈ matched metricNames rec metric name
  <-> r = rec /\ metric = name /\ name ∈ metricNames.
Proof.
  unfold matched. rewrite list_elem_of_bind. split.
  - intros (req & Hr%list_elem_of_singleton & Hreq%list_elem_of_filter).
    destruct Hreq as [[-> ->] Hin]. done.
  - intros (-> & -> & Hin). exists name.
    rewrite list_elem_of_singleton, list_elem_of_filter. done.
Qed.

Lemma metricOf_Some (item : value) (metric : string) :
  metricOf item = Some metric
  <-> exists data attr key,
        item = VMap data
        /\ field data "dataSource" = VString "metrics"
        /\ field data "aggregateAttribute" = VMap attr
        /\ field attr "key" = VString key
        /\ strings.TrimSpace key = metric.
Proof.
  unfold metricOf. split.
  - destruct item as [| | | | |data|]; simpl; try done.
    destruct (eqString (field data "dataSource") "metrics") eqn:Hds; [|done].
    apply eqString_true in Hds.
    destruct (field data "aggregateAttribute") as [| | | | |attr|] eqn:Ha; simpl; try done.
    destruct (field attr "key") as [| | |key| | |] eqn:Hk; simpl; try done.
    intros [= <-]. by exists data, attr, key.
  - intros (data & attr & key & -> & Hds & Ha & Hk & <-). simpl.
    rewrite Hds. simpl. rewrite Ha. simpl. by rewrite Hk.
Qed.

Lemma elem_of_spec_usages (json_Unmarshal : string -> option Data)
    (rows : list dashboardRow) (metricNames : list string) (name : string)
    (rec : gmap string string) :
  rec ∈ spec_usages json_Unmarshal rows metricNames name
  <-> exists row doc widgets widget item data attr key,
        row ∈ rows
        /\ json_Unmarshal (dashboardRow_Data row) = Some doc
        /\ index doc "widgets" = VSlice widgets
        /\ VMap widget ∈ widgets
        /\ item ∈ builderItems widget
        /\ item = VMap data
        /\ field data "dataSource" = VString "metrics"
        /\ field data "aggregateAttribute" = VMap attr
        /\ field attr "key" = VString key
        /\ strings.TrimSpace key = name
        /\ name ∈ metricNames
        /\ rec = usageRecord (dashboardRow_Uuid row)
                   (stringOrZero (field widget "title"))
                   (stringOrZero (field widget "id"))
                   (stringOrZero (index doc "title")).
Proof.
  unfold spec_usages. rewrite list_elem_of_bind. split.
  - intros (row & Hrec & Hrow).
    apply list_elem_of_bind in Hrec as (w & Hrec & Hw).
    unfold rowWidgets, rowTitle in *.
    destruct (json_Unmarshal (dashboardRow_Data row)) as [doc|] eqn:Hdoc;
      [|by apply elem_of_nil in Hw].
    destruct (asSlice (index doc "widgets")) as [widgets|] eqn:Hws;
      [|by apply elem_of_nil in Hw].
    apply asSlice_Some in Hws. simpl in Hw.
    unfold widgetUsages in Hrec.
    destruct (asMap w) as [widget|] eqn:Hwidget; [|by apply elem_of_nil in Hrec].
    apply asMap_Some in Hwidget as ->.
    apply list_elem_of_bind in Hrec as (item & Hrec & Hitem).
    destruct (metricOf item) as [metric|] eqn:Hm; [|by apply elem_of_nil in Hrec].
    apply elem_of_matched in Hrec as (-> & -> & Hin).
    apply metricOf_Some in Hm as (data & attr & key & -> & Hds & Ha & Hk & Ht).
    exists row, doc, widgets, widget, (VMap data), data, attr, key. done.
  - intros (row & doc & widgets & widget & item & data & attr & key & Hrow & Hdoc
            & Hws & Hw & Hitem & -> & Hds & Ha & Hk & Ht & Hin & ->).
    exists row. split; [|done].
    apply list_elem_of_bind. exists (VMap widget).
    unfold rowWidgets, rowTitle. rewrite Hdoc, Hws. simpl. split; [|done].
    apply list_elem_of_bind. exists (VMap data). split; [|done].
    assert (metricOf (VMap data) = Some name) as ->
      by (apply metricOf_Some; by exists data, attr, key).
    by apply elem_of_matched.
Qed.

(** What the function returns when the rows are read: the index whose
    entries are the usage records of the reference definition. *)
Lemma GetDashboardsWithMetricNames_index_entries {S} (db : Store S)
    (json_Unmarshal : string -> option Data) (st : S)
    (rows : list dashboardRow) (metricNames : list string) :
  db_Select db st = Success rows ->
  exists result,
    GetDashboardsWithMetricNames db json_Unmarshal st metricNames = inl result
    /\ (forall name,
          entries result name = spec_usages json_Unmarshal rows metricNames name).
Proof.
  intros Hsel. unfold GetDashboardsWithMetricNames. rewrite Hsel.
  eexists. split; [reflexivity|].
  intros name. apply scanDashboards_spec.
Qed.

(** The map literal of the code, key by key. *)
Lemma usageRecord_fields (dashboardUuid widgetTitle widgetID dashTitle : string) :
  usageRecord dashboardUuid widgetTitle widgetID dashTitle
  = {[ "dashboard_id" := dashboardUuid; "widget_title" := widgetTitle;
       "widget_id" := widgetID; "dashboard_title" := dashTitle ]}
  /\ usageRecord dashboardUuid widgetTitle widgetID dashTitle !! "dashboard_id"
     = Some dashboardUuid
  /\ usageRecord dashboardUuid widgetTitle widgetID dashTitle !! "dashboard_title"
     = Some dashTitle
  /\ usageRecord dashboardUuid widgetTitle widgetID dashTitle !! "widget_id"
     = Some widgetID
  /\ usageRecord dashboardUuid widgetTitle widgetID dashTitle !! "widget_title"
     = Some widgetTitle
  /\ dom (usageRecord dashboardUuid widgetTitle widgetID dashTitle)
     = ({[ "dashboard_id"; "dashboard_title"; "widget_id"; "widget_title" ]}
        : gset string).
Proof.
  unfold usageRecord. split_and!.
  - reflexivity.
  - by simplify_map_eq.
  - by simplify_map_eq.
  - by simplify_map_eq.
  - by simplify_map_eq.
  - rewrite !dom_insert_L, dom_empty_L. set_solver.
Qed.

(** *** Claim C6.
    Under every metric name the index holds, in row, widget and item
    order, one usage record per builder query item whose [dataSource] is
    ["metrics"] and whose [aggregateAttribute.key], once trimmed, equals
    that name, the name being one of those requested.  So a record for a
    widget is stored under a name exactly when such an item exists in the
    widget.  The record has the four keys [dashboard_id],
    [dashboard_title], [widget_id] and [widget_title] and no other, holding
    the uuid of the row, the title of the document, and the id and title
    of the widget (the empty string for one that is missing or not a
    string). *)
Theorem GetDashboardsWithMetricNames_usages {S} (db : Store S)
    (json_Unmarshal : string -> option Data) (st : S)
    (rows : list dashboardRow) (metricNames : list string) :
  db_Select db st = Success rows ->
  exists result,
    GetDashboardsWithMetricNames db json_Unmarshal st metricNames = inl result
    /\ (forall name,
          entries result name = spec_usages json_Unmarshal rows metricNames name)
    /\ (forall name rec,
          rec ∈ entries result name
          <-> exists row doc widgets widget item data attr key,
                row ∈ rows
                /\ json_Unmarshal (dashboardRow_Data row) = Some doc
                /\ index doc "widgets" = VSlice widgets
                /\ VMap widget ∈ widgets
                /\ item ∈ builderItems widget
                /\ item = VMap data
                /\ field data "dataSource" = VString "metrics"
                /\ field data "aggregateAttribute" = VMap attr
                /\ field attr "key" = VString key
                /\ strings.TrimSpace key = name
                /\ name ∈ metricNames
                /\ rec = {[ "dashboard_id" := dashboardRow_Uuid row;
                            "widget_title" := stringOrZero (field widget "title");
                            "widget_id" := stringOrZero (field widget "id");
                            "dashboard_title" := stringOrZero (index doc "title") ]})
    /\ (forall name rec,
          rec ∈ entries result name ->
          dom rec = ({[ "dashboard_id"; "dashboard_title"; "widget_id";
                        "widget_title" ]} : gset string)
          /\ exists row doc widget,
               row ∈ rows
               /\ json_Unmarshal (dashboardRow_Data row) = Some doc
               /\ VMap widget ∈ default [] (asSlice (index doc "widgets"))
               /\ rec !! "dashboard_id" = Some (dashboardRow_Uuid row)
               /\ rec !! "dashboard_title" = Some (stringOrZero (index doc "title"))
               /\ rec !! "widget_id" = Some (stringOrZero (field widget "id"))
               /\ rec !! "widget_title" = Some (stringOrZero (field widget "title"))).
Proof.
  intros Hsel. unfold GetDashboardsWithMetricNames. rewrite Hsel.
  eexists. split; [reflexivity|]. split_and!.
  - intros name. apply scanDashboards_spec.
  - intros name rec.
    rewrite (proj1 (scanDashboards_spec json_Unmarshal metricNames rows name)).
    rewrite elem_of_spec_usages.
    by do 8 (apply exist_proper; intros ?).
  - intros name rec.
    rewrite (proj1 (scanDashboards_spec json_Unmarshal metricNames rows name)).
    rewrite elem_of_spec_usages.
    intros (row & doc & widgets & widget & item & data & attr & key & Hrow & Hdoc
            & Hws & Hw & _ & _ & _ & _ & _ & _ & _ & ->).
    destruct (usageRecord_fields (dashboardRow_Uuid row)
                (stringOrZero (field widget "title"))
                (stringOrZero (field widget "id"))
                (stringOrZero (index doc "title")))
      as (_ & Hid & Hdt & Hwid & Hwt & Hdom).
    split; [exact Hdom|].
    exists row, doc, widget. rewrite Hws. simpl. by split_and!.
Qed.

(** The key [" cpu_usage "] is found under the requested name
    ["cpu_usage"]. *)
Lemma GetDashboardsWithMetricNames_usages_witness :
  exists result,
    GetDashboardsWithMetricNames (memStore (unmarshalAmong [cpuDoc]))
      (unmarshalAmong [cpuDoc]) (storeOf [("d1", cpuDoc)]) ["cpu_usage"]
    = inl result
    /\ result !! "cpu_usage"
       = Some [{[ "dashboard_id" := "d1"; "widget_title" := "CPU";
                  "widget_id" := "w1"; "dashboard_title" := "Hosts" ]}].
Proof.
  destruct (GetDashboardsWithMetricNames_usages
              (memStore (unmarshalAmong [cpuDoc])) (unmarshalAmong [cpuDoc])
              (storeOf [("d1", cpuDoc)])
              [{| dashboardRow_Uuid := "d1"; dashboardRow_Data := textOf cpuDoc |}]
              ["cpu_usage"] eq_refl) as (result & Hres & Hentries & _).
  exists result. split; [exact Hres|].
  specialize (Hentries "cpu_usage"). unfold entries in Hentries.
  destruct (result !! "cpu_usage") as [l|]; simpl in Hentries.
  - rewrite Hentries. vm_compute. reflexivity.
  - vm_compute in Hentries. discriminate.
Defined.

(** *** Claim C9.
    A name without any matching item has no key in the index, and no key
    of the index holds an empty list. *)
Theorem GetDashboardsWithMetricNames_no_empty_entry {S} (db : Store S)
    (json_Unmarshal : string -> option Data) (st : S)
    (rows : list dashboardRow) (metricNames : list string) :
  db_Select db st = Success rows ->
  exists result,
    GetDashboardsWithMetricNames db json_Unmarshal st metricNames = inl result
    /\ (forall name,
          spec_usages json_Unmarshal rows metricNames name = [] ->
          result !! name = None)
    /\ (forall name, name ∉ metricNames -> result !! name = None)
    /\ (forall name records, result !! name = Some records -> records <> []).
Proof.
  intros Hsel. unfold GetDashboardsWithMetricNames. rewrite Hsel.
  eexists. split; [reflexivity|].
  assert (forall name,
            spec_usages json_Unmarshal rows metricNames name = [] ->
            fold_left (scanDashboard json_Unmarshal metricNames) rows ∅ !! name = None)
    as Hnone by (intros name; apply scanDashboards_spec).
  split_and!.
  - exact Hnone.
  - intros name Hnot. apply Hnone.
    destruct (spec_usages json_Unmarshal rows metricNames name) as [|rec l] eqn:Hu;
      [done|].
    assert (rec ∈ spec_usages json_Unmarshal rows metricNames name) as Hin
      by (rewrite Hu; by left).
    apply elem_of_spec_usages in Hin
      as (? & ? & ? & ? & ? & ? & ? & ? & _ & _ & _ & _ & _ & _ & _ & _ & _ & _ & Hin & _).
    done.
  - intros name records Hlook ->.
    destruct (scanDashboards_spec json_Unmarshal metricNames rows name) as [He Hn].
    unfold entries in He. rewrite Hlook in He. simpl in He.
    symmetry in He. apply Hn in He. congruence.
Qed.

Lemma GetDashboardsWithMetricNames_no_empty_entry_witness :
  exists result,
    GetDashboardsWithMetricNames (memStore (unmarshalAmong [cpuDoc]))
      (unmarshalAmong [cpuDoc]) (storeOf [("d1", cpuDoc)]) ["cpu_usage"; "mem_usage"]
    = inl result
    /\ result !! "mem_usage" = None.
Proof.
  destruct (GetDashboardsWithMetricNames_no_empty_entry
              (memStore (unmarshalAmong [cpuDoc])) (unmarshalAmong [cpuDoc])
              (storeOf [("d1", cpuDoc)])
              [{| dashboardRow_Uuid := "d1"; dashboardRow_Data := textOf cpuDoc |}]
              ["cpu_usage"; "mem_usage"] eq_refl) as (result & Hres & Hnone & _).
  exists result. split; [exact Hres|].
  apply Hnone. vm_compute. reflexivity.
Defined.

(** ** [queryType] in the index and in the counts *)

(** The body of the widget loop of the index does the same whatever is
    stored under [queryType], and when nothing is. *)
Lemma scanWidget_queryType (metricNames : list string)
    (dashboardUuid dashTitle : string) (result : usageIndex)
    (widget query : gmap string value) (queryType : value) :
  scanWidget metricNames dashboardUuid dashTitle result
    (VMap (<["query" := VMap (<["queryType" := queryType]> query)]> widget))
  = scanWidget metricNames dashboardUuid dashTitle result
      (VMap (<["query" := VMap (delete "queryType" query)]> widget)).
Proof.
  unfold scanWidget. simpl.
  rewrite !field_insert_eq, !field_insert_ne by done. simpl.
  by rewrite field_insert_ne, field_delete_ne.
Qed.

(** The panel counts that the loops leave depend on the panel counts they
    start from only. *)
Lemma countQueryData_samePanels (l : list value) (c1 c2 : panelCounters) :
  samePanels c1 c2 ->
  samePanels (fold_left countQueryData l c1) (fold_left countQueryData l c2).
Proof.
  revert c1 c2. induction l as [|qd l IH]; intros c1 c2 Hc; simpl; [done|].
  apply IH. destruct Hc as (H1 & H2 & H3 & H4).
  unfold countQueryData, samePanels.
  repeat case_match; simpl; split_and!; congruence.
Qed.

Lemma countWidget_samePanels (data : Data) (w : value) (c1 c2 : panelCounters) :
  samePanels c1 c2 -> samePanels (countWidget data c1 w) (countWidget data c2 w).
Proof.
  intros Hc. unfold countWidget.
  repeat case_match; try done; by apply countQueryData_samePanels.
Qed.

Lemma countWidgets_samePanels (data : Data) (ws : list value)
    (c1 c2 : panelCounters) :
  samePanels c1 c2 ->
  samePanels (fold_left (countWidget data) ws c1)
             (fold_left (countWidget data) ws c2).
Proof.
  revert c1 c2. induction ws as [|w ws IH]; intros c1 c2 Hc; simpl; [done|].
  by apply IH, countWidget_samePanels.
Qed.

(** The widgets whose [queryType] is not ["builder"] can be left out of
    the loop without changing a panel count. *)
Lemma countWidgets_builder_only (data : Data) (ws : list value) (c : panelCounters) :
  samePanels (fold_left (countWidget data) ws c)
             (fold_left (countWidget data)
                (filter (fun w => isBuilderWidget w = true) ws) c).
Proof.
  revert c. induction ws as [|w ws IH]; intros c; simpl; [done|].
  destruct (isBuilderWidget w) eqn:Hw.
  - rewrite filter_cons_True by done. simpl. apply IH.
  - rewrite filter_cons_False by (rewrite Hw; discriminate).
    assert (samePanels (countWidget data c w) c) as Hs
      by apply (countWidget_not_builder data c w Hw).
    destruct (countWidgets_samePanels data ws _ _ Hs) as (A1 & A2 & A3 & A4).
    destruct (IH c) as (B1 & B2 & B3 & B4).
    unfold samePanels. split_and!; congruence.
Qed.

(** *** Claim C10.
    The index does not look at [queryType]: a metrics item of
    [query.builder.queryData] whose trimmed key is a requested name gives
    a usage record whatever the widget's [queryType] is, in particular
    when it is absent or ["clickhouse_sql"], and the loop body computes
    the same index for any value of the field and without it.  The panel
    counts come from widgets whose [queryType] is ["builder"] only: a
    widget with another [queryType], or none, leaves every panel count as
    it was, whatever the rest of the document holds; the counts of a
    document are those of its builder widgets alone; and a document
    without such a widget has all panel counts at 0. *)
Theorem queryType_index_versus_counts :
  (forall (S : Type) (db : Store S) (json_Unmarshal : string -> option Data) (st : S)
          (rows : list dashboardRow) (metricNames : list string)
          row doc widgets widget query builder queryData item name,
      db_Select db st = Success rows ->
      row ∈ rows ->
      json_Unmarshal (dashboardRow_Data row) = Some doc ->
      index doc "widgets" = VSlice widgets ->
      VMap widget ∈ widgets ->
      field widget "query" = VMap query ->
      field query "builder" = VMap builder ->
      field builder "queryData" = VSlice queryData ->
      item ∈ queryData ->
      metricOf item = Some name ->
      name ∈ metricNames ->
      exists result,
        GetDashboardsWithMetricNames db json_Unmarshal st metricNames = inl result
        /\ ({[ "dashboard_id" := dashboardRow_Uuid row;
               "widget_title" := stringOrZero (field widget "title");
               "widget_id" := stringOrZero (field widget "id");
               "dashboard_title" := stringOrZero (index doc "title") ]}
              : gmap string string) ∈ entries result name)
  /\ (forall metricNames dashboardUuid dashTitle result widget query queryType,
        scanWidget metricNames dashboardUuid dashTitle result
          (VMap (<["query" := VMap (<["queryType" := queryType]> query)]> widget))
        = scanWidget metricNames dashboardUuid dashTitle result
            (VMap (<["query" := VMap (delete "queryType" query)]> widget)))
  /\ (forall data,
        hasBuilderWidget data = false ->
        LogsBasedPanels (countPanelsInDashboard data) = 0
        /\ TracesBasedPanels (countPanelsInDashboard data) = 0
        /\ MetricBasedPanels (countPanelsInDashboard data) = 0
        /\ LogsPanelsWithAttrContainsOp (countPanelsInDashboard data) = 0)
  /\ (forall data c w,
        isBuilderWidget w = false ->
        logsPanelCount (countWidget data c w) = logsPanelCount c
        /\ tracesPanelCount (countWidget data c w) = tracesPanelCount c
        /\ metricsPanelCount (countWidget data c w) = metricsPanelCount c
        /\ logsPanelsWithAttrContains (countWidget data c w)
           = logsPanelsWithAttrContains c)
  /\ (forall data widgets,
        index data "widgets" = VSlice widgets ->
        LogsBasedPanels (countPanelsInDashboard data)
        = logsPanelCount
            (fold_left (countWidget data)
               (filter (fun w => isBuilderWidget w = true) widgets) zeroCounters)
        /\ TracesBasedPanels (countPanelsInDashboard data)
           = tracesPanelCount
               (fold_left (countWidget data)
                  (filter (fun w => isBuilderWidget w = true) widgets) zeroCounters)
        /\ MetricBasedPanels (countPanelsInDashboard data)
           = metricsPanelCount
               (fold_left (countWidget data)
                  (filter (fun w => isBuilderWidget w = true) widgets) zeroCounters)
        /\ LogsPanelsWithAttrContainsOp (countPanelsInDashboard data)
           = logsPanelsWithAttrContains
               (fold_left (countWidget data)
                  (filter (fun w => isBuilderWidget w = true) widgets) zeroCounters)).
Proof.
  split_and!.
  - intros S db json_Unmarshal st rows metricNames row doc widgets widget query
      builder queryData item name Hsel Hrow Hdoc Hws Hw Hq Hb Hqd Hitem Hm Hname.
    destruct (GetDashboardsWithMetricNames_index_entries db json_Unmarshal st rows
                metricNames Hsel) as (result & Hres & Hentries).
    exists result. split; [exact Hres|].
    rewrite Hentries. apply elem_of_spec_usages.
    apply metricOf_Some in Hm as (data & attr & key & -> & Hds & Ha & Hk & Ht).
    exists row, doc, widgets, widget, (VMap data), data, attr, key.
    split_and!; try done.
    unfold builderItems. rewrite Hq. simpl. rewrite Hb. simpl. by rewrite Hqd.
  - apply scanWidget_queryType.
  - intros data Hb. rewrite countPanelsInDashboard_unfold. simpl.
    unfold hasBuilderWidget in Hb.
    destruct (asSlice (index data "widgets")) as [ws|]; simpl; [|done].
    by apply countWidgets_not_builder.
  - intros data c w. apply countWidget_not_builder.
  - intros data widgets Hws. rewrite countPanelsInDashboard_unfold, Hws. simpl.
    apply countWidgets_builder_only.
Qed.

(** A widget declared as a raw query is indexed by its builder items and
    counted as no panel, alone or beside a builder widget. *)
Lemma queryType_index_versus_counts_witness :
  (exists result,
     GetDashboardsWithMetricNames (memStore (unmarshalAmong [cpuRawDoc]))
       (unmarshalAmong [cpuRawDoc]) (storeOf [("d1", cpuRawDoc)]) ["cpu_usage"]
     = inl result
     /\ ({[ "dashboard_id" := "d1"; "widget_title" := "CPU";
            "widget_id" := "w1"; "dashboard_title" := "Hosts" ]}
           : gmap string string) ∈ entries result "cpu_usage")
  /\ MetricBasedPanels (countPanelsInDashboard cpuRawDoc) = 0
  /\ MetricBasedPanels (countPanelsInDashboard mixedDoc) = 1.
Proof.
  split_and!.
  - apply (proj1 queryType_index_versus_counts (list memRow)
             (memStore (unmarshalAmong [cpuRawDoc])) (unmarshalAmong [cpuRawDoc])
             (storeOf [("d1", cpuRawDoc)])
             [{| dashboardRow_Uuid := "d1"; dashboardRow_Data := textOf cpuRawDoc |}]
             ["cpu_usage"]
             {| dashboardRow_Uuid := "d1"; dashboardRow_Data := textOf cpuRawDoc |}
             cpuRawDoc
             [metricsWidget (VString "clickhouse_sql") " cpu_usage "]
             (metricsWidgetMap (VString "clickhouse_sql") " cpu_usage ")
             (metricsQuery (VString "clickhouse_sql") " cpu_usage ")
             (metricsBuilder " cpu_usage ")
             [metricsItem " cpu_usage "]
             (metricsItem " cpu_usage ")
             "cpu_usage").
    + reflexivity.
    + by left.
    + vm_compute. reflexivity.
    + vm_compute. reflexivity.
    + by left.
    + vm_compute. reflexivity.
    + vm_compute. reflexivity.
    + vm_compute. reflexivity.
    + by left.
    + vm_compute. reflexivity.
    + by left.
  - apply (proj1 (proj2 (proj2 queryType_index_versus_counts)) cpuRawDoc).
    vm_compute. reflexivity.
  - destruct (proj2 (proj2 (proj2 (proj2 queryType_index_versus_counts))) mixedDoc
                [metricsWidget (VString "builder") " cpu_usage ";
                 metricsWidget (VString "clickhouse_sql") " cpu_usage "])
      as (_ & _ & -> & _).
    + vm_compute. reflexivity.
    + vm_compute. reflexivity.
Defined.

(** ** [UpdateDashboard] *)

(** *** Claim C3.
    For a stored dashboard, when the difference between its widget ids
    and those of the new document has more than one element, the update
    is refused with an error of the bad-data type, which is neither the
    type of a failed statement nor that of a missing row, and the database
    state is the one the call started from; once the document serializes
    and no lock applies, that error is the bad request
    "deleting more than one panel is not supported".  When the difference
    has at most one element the check passes: the statement is executed
    and the call returns the updated dashboard, or the error of the
    statement. *)
Theorem UpdateDashboard_panel_guard {S} (db : Store S) (st : S) (now : Z)
    (user : option User) (uuid : string) (data : Data) (dashboard : Dashboard) :
  GetDashboard db st uuid = inl dashboard ->
  ((1 < length (getIdDifference (getWidgetIds (Dashboard_Data dashboard))
                  (getWidgetIds data)))%nat ->
   exists apiErr,
     UpdateDashboard db st now user uuid data = (inr apiErr, st)
     /\ Typ apiErr = ErrorBadData
     /\ Typ apiErr <> ErrorExec
     /\ Typ apiErr <> ErrorNotFound
     /\ (forall mapData,
           json.Marshal data = Success mapData ->
           user = None \/ isLocked dashboard = false ->
           apiErr = BadRequest "deleting more than one panel is not supported"))
  /\ ((length (getIdDifference (getWidgetIds (Dashboard_Data dashboard))
                 (getWidgetIds data)) <= 1)%nat ->
      forall mapData,
        json.Marshal data = Success mapData ->
        user = None \/ isLocked dashboard = false ->
        exists st' outcome,
          db_Exec_update db st now
            (match user with Some u => Email u | None => EmptyString end)
            mapData (Dashboard_Uuid dashboard) = (st', outcome)
          /\ match outcome with
             | Some err =>
                 UpdateDashboard db st now user uuid data
                 = (inr {| Typ := ErrorExec; Err := err |}, st')
             | None =>
                 exists updated,
                   UpdateDashboard db st now user uuid data = (inl updated, st')
                   /\ Dashboard_Data updated = data
                   /\ Dashboard_Uuid updated = Dashboard_Uuid dashboard
                   /\ Dashboard_UpdatedAt updated = now
             end).
Proof.
  intros Hget. unfold UpdateDashboard. rewrite Hget. split.
  - intros Hlen. apply Nat.ltb_lt in Hlen.
    destruct (json.Marshal data) as [mapData|err].
    + destruct user as [u|].
      * destruct (isLocked dashboard) eqn:Hlock.
        -- eexists. split; [reflexivity|]. simpl. split_and!; try done.
           intros ? _ [?|?]; congruence.
        -- rewrite Hlen. eexists. split; [reflexivity|]. simpl. by split_and!.
      * rewrite Hlen. eexists. split; [reflexivity|]. simpl. by split_and!.
    + eexists. split; [reflexivity|]. simpl. split_and!; try done.
  - intros Hlen mapData -> Hlock.
    assert ((1 <? length (getIdDifference (getWidgetIds (Dashboard_Data dashboard))
                            (getWidgetIds data)))%nat = false) as ->
      by (apply Nat.ltb_ge; lia).
    assert (match user with Some _ => isLocked dashboard | None => false end = false)
      as -> by (destruct user; [destruct Hlock; congruence | done]).
    simpl.
    destruct (db_Exec_update db st now _ mapData (Dashboard_Uuid dashboard))
      as [st' [err|]] eqn:Hexec.
    + exists st', (Some err). done.
    + exists st', None. split; [done|]. eexists. split; [reflexivity|]. done.
Qed.

(** Removing [w2] and [w3] at once is refused and nothing is written;
    removing [w2] alone goes through. *)
Lemma UpdateDashboard_panel_guard_witness :
  (exists apiErr,
     UpdateDashboard (memStore (unmarshalAmong [widgetsDoc ["w1"; "w2"; "w3"]]))
       (storeOf [("d1", widgetsDoc ["w1"; "w2"; "w3"])]) 7 None "d1"
       (widgetsDoc ["w1"])
     = (inr apiErr, storeOf [("d1", widgetsDoc ["w1"; "w2"; "w3"])])
     /\ apiErr = BadRequest "deleting more than one panel is not supported")
  /\ (exists st' updated,
        UpdateDashboard (memStore (unmarshalAmong [widgetsDoc ["w1"; "w2"; "w3"]]))
          (storeOf [("d1", widgetsDoc ["w1"; "w2"; "w3"])]) 7 None "d1"
          (widgetsDoc ["w1"; "w3"])
        = (inl updated, st')
        /\ Dashboard_Data updated = widgetsDoc ["w1"; "w3"]).
Proof.
  pose proof (UpdateDashboard_panel_guard
                (memStore (unmarshalAmong [widgetsDoc ["w1"; "w2"; "w3"]]))
                (storeOf [("d1", widgetsDoc ["w1"; "w2"; "w3"])]) 7 None "d1") as H.
  split.
  - edestruct (H (widgetsDoc ["w1"])) as [Hreject _].
    { vm_compute. reflexivity. }
    destruct Hreject as (apiErr & Hres & _ & _ & _ & Hpolicy).
    { vm_compute. lia. }
    exists apiErr. split; [exact Hres|].
    eapply Hpolicy; [vm_compute; reflexivity | by left].
  - edestruct (H (widgetsDoc ["w1"; "w3"])) as [_ Hpass].
    { vm_compute. reflexivity. }
    edestruct Hpass as (st' & outcome & Hexec & Hres).
    { vm_compute. lia. }
    { vm_compute. reflexivity. }
    { by left. }
    simpl in Hexec. injection Hexec as <- <-.
    destruct Hres as (updated & Hres & Hdata & _).
    eexists. exists updated. split; [exact Hres | exact Hdata].
Defined.
